(** * Energy calculator: the computational core of [app.py]

    The program estimates the daily electrical consumption of a household from
    its housing type, its room configuration and the temperature of the day,
    and summarises a week of such estimates.

    Python's [float] is IEEE 754 binary64; it is modelled by Rocq's primitive
    [float], whose operations are the same binary64 operations.  Dictionaries
    are association lists in insertion order, because [sum(d.values())] adds
    the values in that order and floating-point addition is not associative.
    A subscript [d[k]] may raise [KeyError]; such code lives in the [result]
    monad below. *)

From Stdlib Require Import ZArith List String Bool Lia Floats Permutation.
From Stdlib Require Uint63.
Import ListNotations.

Set Warnings "-inexact-float".

Local Open Scope string_scope.
Local Open Scope list_scope.
Local Open Scope float_scope.

(** ** Python values and outcomes *)

(** Exceptions the modelled code can raise. *)
Inductive exn : Type :=
| KeyError (key : string)
| ValueError.

(** The outcome of running a piece of Python: a value or a raised exception. *)
Inductive result (A : Type) : Type :=
| Ok (a : A)
| Raise (e : exn).

Arguments Ok {A} a.
Arguments Raise {A} e.

Definition bind {A B : Type} (r : result A) (k : A -> result B) : result B :=
  match r with
  | Ok a => k a
  | Raise e => Raise e
  end.

Notation "x <- r ;; k" := (bind r (fun x => k))
  (at level 61, r at next level, right associativity).

(** Dictionaries with string keys, in insertion order. *)
Module Dict.

Definition t (V : Type) : Type := list (string * V).

Fixpoint lookup {V : Type} (d : t V) (k : string) : option V :=
  match d with
  | [] => None
  | (k', v) :: rest => if String.eqb k' k then Some v else lookup rest k
  end.

(** [d.get(k, default)] *)
Definition get {V : Type} (d : t V) (k : string) (default : V) : V :=
  match lookup d k with
  | Some v => v
  | None => default
  end.

(** [d[k]] *)
Definition getitem {V : Type} (d : t V) (k : string) : result V :=
  match lookup d k with
  | Some v => Ok v
  | None => Raise (KeyError k)
  end.

(** [d[k] = v]: an existing key keeps its position, a new key goes last. *)
Fixpoint setitem {V : Type} (d : t V) (k : string) (v : V) : t V :=
  match d with
  | [] => [(k, v)]
  | (k', v') :: rest =>
      if String.eqb k' k then (k', v) :: rest else (k', v') :: setitem rest k v
  end.

(** [d.values()] *)
Definition values {V : Type} (d : t V) : list V := map snd d.

(** Truth value of a dictionary: empty is false. *)
Definition truthy {V : Type} (d : t V) : bool :=
  match d with
  | [] => false
  | _ :: _ => true
  end.

End Dict.

(** ** The built-in [sum] on floats

    [sum(xs)] starts from the integer [0] and adds the items from left to
    right.  Up to CPython 3.11 every addition is a plain binary64 addition;
    from CPython 3.12 on the float items after the first are accumulated with
    Neumaier's compensated summation.  Both are modelled, and the statements
    about totals hold for either. *)

Inductive sum_algorithm : Type :=
| Sequential
| Compensated.

Definition sum_sequential (xs : list float) : float :=
  fold_left PrimFloat.add xs 0.

(** One step of the compensated loop: running sum [s], compensation [c]. *)
Definition neumaier_step (sc : float * float) (x : float) : float * float :=
  let '(s, c) := sc in
  let t := s + x in
  if abs x <=? abs s
  then (t, c + ((s - t) + x))
  else (t, c + ((x - t) + s)).

Definition sum_compensated (xs : list float) : float :=
  match xs with
  | [] => 0
  | x :: rest =>
      let '(s, c) := fold_left neumaier_step rest (0 + x, 0) in
      if negb (c =? 0) && is_finite c then s + c else s
  end.

Definition py_sum (alg : sum_algorithm) (xs : list float) : float :=
  match alg with
  | Sequential => sum_sequential xs
  | Compensated => sum_compensated xs
  end.

(** ** The estimator *)

(** The table of [calculate_base_energy]: kWh per day, by housing type, room
    configuration and category. *)
Definition base_consumption : Dict.t (Dict.t (Dict.t float)) :=
  [ ("flat",
     [ ("1BHK", [ ("lighting", 1.5); ("fan_ac", 4.0); ("appliances", 3.5);
                  ("water_heater", 2.0); ("refrigerator", 1.8) ]);
       ("2BHK", [ ("lighting", 2.2); ("fan_ac", 6.0); ("appliances", 4.5);
                  ("water_heater", 2.5); ("refrigerator", 2.0) ]);
       ("3BHK", [ ("lighting", 3.0); ("fan_ac", 8.0); ("appliances", 6.0);
                  ("water_heater", 3.0); ("refrigerator", 2.2) ]) ]);
    ("tenement",
     [ ("1BHK", [ ("lighting", 1.8); ("fan_ac", 5.0); ("appliances", 3.0);
                  ("water_heater", 1.5); ("refrigerator", 1.6) ]);
       ("2BHK", [ ("lighting", 2.5); ("fan_ac", 7.0); ("appliances", 4.0);
                  ("water_heater", 2.0); ("refrigerator", 1.8) ]);
       ("3BHK", [ ("lighting", 3.5); ("fan_ac", 9.0); ("appliances", 5.5);
                  ("water_heater", 2.5); ("refrigerator", 2.0) ]) ]) ].

(** [base_consumption.get(flat_tenement, {}).get(bhk, {})] *)
Definition calculate_base_energy (flat_tenement bhk : string) : Dict.t float :=
  Dict.get (Dict.get base_consumption flat_tenement []) bhk [].

(** The cascade of [calculate_weather_adjustment].  The thresholds are the
    integers 18, 22, 26, 30 and 35, which binary64 represents exactly.  The
    slider of the dashboard supplies integers from 10 to 45; they stand here
    as the floats of the same value, on which every comparison below gives
    the answer of the integer comparison. *)
Definition calculate_weather_adjustment (temperature base_fan_ac : float)
  : float :=
  if temperature <? 18 then base_fan_ac * 0.1
  else if temperature <? 22 then base_fan_ac * 0.3
  else if temperature <? 26 then base_fan_ac * 0.6
  else if temperature <? 30 then base_fan_ac * 0.8
  else if temperature <? 35 then base_fan_ac * 1.0
  else base_fan_ac * 1.3.

(** [calculate_daily_energy]: [Ok None] is Python's [None]. *)
Definition calculate_daily_energy (alg : sum_algorithm)
  (flat_tenement bhk : string) (temperature : float)
  : result (option (Dict.t float)) :=
  let base_energy := calculate_base_energy flat_tenement bhk in
  if negb (Dict.truthy base_energy) then Ok None
  else
    fan_ac <- Dict.getitem base_energy "fan_ac" ;;
    let adjusted_fan_ac := calculate_weather_adjustment temperature fan_ac in
    lighting <- Dict.getitem base_energy "lighting" ;;
    appliances <- Dict.getitem base_energy "appliances" ;;
    water_heater <- Dict.getitem base_energy "water_heater" ;;
    refrigerator <- Dict.getitem base_energy "refrigerator" ;;
    let daily_consumption :=
      [ ("lighting", lighting); ("fan_ac", adjusted_fan_ac);
        ("appliances", appliances); ("water_heater", water_heater);
        ("refrigerator", refrigerator) ] in
    Ok (Some (Dict.setitem daily_consumption "total"
                (py_sum alg (Dict.values daily_consumption)))).

(** ** The weekly dashboard of [main] *)

(** The six labels of the weather card (the source prefixes each with an
    emoji): Very Cold, Cool, Comfortable, Warm, Hot, Very Hot. *)
Inductive weather_label : Type :=
| Very_Cold
| Cool
| Comfortable
| Warm
| Hot
| Very_Hot.

(** The cascade that chooses [weather_desc] and [weather_gradient]. *)
Definition weather_description (temperature : float)
  : weather_label * string :=
  if temperature <? 18
  then (Very_Cold, "linear-gradient(135deg, #74b9ff, #0984e3)")
  else if temperature <? 22
  then (Cool, "linear-gradient(135deg, #00cec9, #00b894)")
  else if temperature <? 26
  then (Comfortable, "linear-gradient(135deg, #00b894, #55a3ff)")
  else if temperature <? 30
  then (Warm, "linear-gradient(135deg, #fdcb6e, #f39c12)")
  else if temperature <? 35
  then (Hot, "linear-gradient(135deg, #fd79a8, #e84393)")
  else (Very_Hot, "linear-gradient(135deg, #ff6b6b, #ee5253)").

Definition weather_desc (temperature : float) : weather_label :=
  fst (weather_description temperature).

(** One row of [weekly_data]. *)
Record weekly_row : Type := {
  Day : string;
  Temperature : float;
  Total_Energy : float;
  Lighting : float;
  Fan_AC : float;
  Appliances : float;
  Water_Heater : float;
  Refrigerator : float
}.

Definition days : list string :=
  ["Monday"; "Tuesday"; "Wednesday"; "Thursday"; "Friday"; "Saturday";
   "Sunday"].

(** The body of the loop over the days, as far as [weekly_data] goes:
    [info_complete] is [name.strip() and city.strip() and area.strip()]. *)
Definition append_day (alg : sum_algorithm) (info_complete : bool)
  (flat_tenement bhk : string) (weekly_data : list weekly_row)
  (day : string) (temperature : float) : result (list weekly_row) :=
  if info_complete then
    daily_energy <- calculate_daily_energy alg flat_tenement bhk temperature ;;
    match daily_energy with
    | None => Ok weekly_data
    | Some d =>
        if Dict.truthy d then
          total <- Dict.getitem d "total" ;;
          lighting <- Dict.getitem d "lighting" ;;
          fan_ac <- Dict.getitem d "fan_ac" ;;
          appliances <- Dict.getitem d "appliances" ;;
          water_heater <- Dict.getitem d "water_heater" ;;
          refrigerator <- Dict.getitem d "refrigerator" ;;
          Ok (weekly_data ++
              [ {| Day := day; Temperature := temperature;
                   Total_Energy := total; Lighting := lighting;
                   Fan_AC := fan_ac; Appliances := appliances;
                   Water_Heater := water_heater;
                   Refrigerator := refrigerator |} ])%list
        else Ok weekly_data
    end
  else Ok weekly_data.

(** The loop: one slider temperature per day, in the order of [days]. *)
Fixpoint collect_week (alg : sum_algorithm) (info_complete : bool)
  (flat_tenement bhk : string) (weekly_data : list weekly_row)
  (day_temperatures : list (string * float)) : result (list weekly_row) :=
  match day_temperatures with
  | [] => Ok weekly_data
  | (day, temperature) :: rest =>
      weekly_data' <- append_day alg info_complete flat_tenement bhk
                        weekly_data day temperature ;;
      collect_week alg info_complete flat_tenement bhk weekly_data' rest
  end.

(** A week of the dashboard with the personal information filled in. *)
Definition week_at (alg : sum_algorithm) (flat_tenement bhk : string)
  (temperatures : list float) : result (list weekly_row) :=
  collect_week alg true flat_tenement bhk [] (combine days temperatures).

(** The numbers behind the four metrics of the weekly summary, before they
    are formatted for display. *)
Record summary_metrics : Type := {
  Total_Weekly_Energy : float;
  Average_Daily_Energy : float;
  Estimated_Monthly_Bill : float;
  Highest_Consumption_Day : string
}.

Definition float_of_nat (n : nat) : float :=
  of_uint63 (Uint63.of_Z (Z.of_nat n)).

(** The first position of the largest item, scanning from left to right and
    moving only to an item that is not below-or-equal the best so far. *)
Fixpoint argmax_from (best_i : nat) (best : float) (i : nat)
  (col : list float) : nat :=
  match col with
  | [] => best_i
  | x :: rest =>
      if negb (x <=? best)
      then argmax_from i x (S i) rest
      else argmax_from best_i best (S i) rest
  end.

Definition argmax (col : list float) : nat :=
  match col with
  | [] => 0%nat
  | x :: rest => argmax_from 0 x 1 rest
  end.

Section Summary.

(** The summation routine of the data-frame library on a float column.  Its
    rounding order is the library's business; the summary only relies on
    [sum] and [mean] using the same routine. *)
Variable column_sum : list float -> float.

(** Missing values (NaN) are skipped by [sum], [mean] and [idxmax]. *)
Definition fillna (v : float) (col : list float) : list float :=
  map (fun x => if is_nan x then v else x) col.

Definition count_valid (col : list float) : nat :=
  List.length (filter (fun x => negb (is_nan x)) col).

Definition Series_sum (col : list float) : float :=
  column_sum (fillna 0 col).

Definition Series_mean (col : list float) : float :=
  column_sum (fillna 0 col) / float_of_nat (count_valid col).

(** [idxmax]: the label of the first maximum; a column without any valid
    value has none. *)
Definition Series_idxmax (col : list float) : result nat :=
  match count_valid col with
  | O => Raise ValueError
  | S _ => Ok (argmax (fillna neg_infinity col))
  end.

(** The weekly summary section: skipped when [weekly_data] is empty
    ([Ok None]), otherwise the four metrics. *)
Definition weekly_summary (weekly_data : list weekly_row)
  : result (option summary_metrics) :=
  match weekly_data with
  | [] => Ok None
  | _ :: _ =>
      let total_energy := map Total_Energy weekly_data in
      idx <- Series_idxmax total_energy ;;
      match nth_error weekly_data idx with
      | None => Raise (KeyError "Day")
      | Some row =>
          Ok (Some {| Total_Weekly_Energy := Series_sum total_energy;
                      Average_Daily_Energy := Series_mean total_energy;
                      Estimated_Monthly_Bill :=
                        Series_sum total_energy * 4.3 * 6;
                      Highest_Consumption_Day := Day row |})
      end
  end.

End Summary.

(** ** The other branches of [main] *)

(** The text fields of the personal information are Python strings:
    sequences of Unicode code points. *)
Definition py_str : Type := list N.

(** The code points [str.strip()] removes: the whitespace of [str.isspace]. *)
Definition is_whitespace (c : N) : bool :=
  ((9 <=? c) && (c <=? 13) || (28 <=? c) && (c <=? 32)
   || (c =? 133) || (c =? 160) || (c =? 5760)
   || (8192 <=? c) && (c <=? 8202)
   || (c =? 8232) || (c =? 8233) || (c =? 8239) || (c =? 8287)
   || (c =? 12288))%N.

Fixpoint lstrip (s : py_str) : py_str :=
  match s with
  | [] => []
  | c :: rest => if is_whitespace c then lstrip rest else s
  end.

Definition rstrip (s : py_str) : py_str := rev (lstrip (rev s)).

(** [s.strip()] *)
Definition strip (s : py_str) : py_str := rstrip (lstrip s).

(** Truth value of a string: empty is false. *)
Definition str_truthy (s : py_str) : bool :=
  match s with
  | [] => false
  | _ :: _ => true
  end.

(** [name.strip() and city.strip() and area.strip()] as a condition. *)
Definition info_complete (name city area : py_str) : bool :=
  str_truthy (strip name) && str_truthy (strip city)
  && str_truthy (strip area).

(** The temperature of a day is the integer of its slider, between 10 and
    45; [slider_value z] is the float that stands for the integer [z]. *)
Definition slider_value (z : Z) : float := of_uint63 (Uint63.of_Z z).

(** The cascade of the weather card run on a Python integer: the same
    tests, decided by integer comparison. *)
Definition weather_desc_int (temperature : Z) : weather_label :=
  if (temperature <? 18)%Z then Very_Cold
  else if (temperature <? 22)%Z then Cool
  else if (temperature <? 26)%Z then Comfortable
  else if (temperature <? 30)%Z then Warm
  else if (temperature <? 35)%Z then Hot
  else Very_Hot.

(** The three cards of energy saving tips shown under the daily chart. *)
Inductive day_tips : Type :=
| Hot_Day_Tips
| Cold_Day_Tips
| Comfortable_Day_Tips.

(** [if temperature > 30: ... elif temperature < 20: ... else: ...] *)
Definition day_tip (temperature : float) : day_tips :=
  if 30 <? temperature then Hot_Day_Tips
  else if temperature <? 20 then Cold_Day_Tips
  else Comfortable_Day_Tips.

(** The ten recommendations of the personalised tips, in the order of the
    source: ceiling fans, solar water heater, insulation; LED lights, 5-star
    appliances, timer-based water heaters; rainwater harvesting, trees; smart
    power strips, AC at 24 degrees. *)
Inductive recommendation : Type :=
| Ceiling_fans
| Solar_water_heater
| Insulation
| LED_lights
| Five_star_appliances
| Timer_water_heaters
| Rainwater_harvesting
| Plant_trees
| Smart_power_strips
| AC_at_24.

(** The list [recommendations] built from the two weekly averages and the
    housing type. *)
Definition recommendations (avg_temp avg_energy : float)
  (flat_tenement : string) : list recommendation :=
  let recs := [] in
  let recs :=
    if 30 <? avg_temp
    then recs ++ [Ceiling_fans; Solar_water_heater; Insulation]
    else recs in
  let recs :=
    if 15 <? avg_energy
    then recs ++ [LED_lights; Five_star_appliances; Timer_water_heaters]
    else recs in
  let recs :=
    if String.eqb flat_tenement "tenement"
    then recs ++ [Rainwater_harvesting; Plant_trees]
    else recs in
  recs ++ [Smart_power_strips; AC_at_24].

(** [enumerate(recommendations, 1)] *)
Definition numbered_recommendations (recs : list recommendation)
  : list (nat * recommendation) :=
  combine (seq 1 (List.length recs)) recs.

(** ** Notions of the specification *)

Definition housing_types : list string := ["flat"; "tenement"].
Definition room_configs : list string := ["1BHK"; "2BHK"; "3BHK"].

(** A pair of the enumerated domain {flat, tenement} x {1BHK, 2BHK, 3BHK}. *)
Definition valid_configuration (housing_type room_config : string) : bool :=
  existsb (String.eqb housing_type) housing_types
  && existsb (String.eqb room_config) room_configs.

(** The multiplier the cascade applies: the adjustment of a base value 1. *)
Definition weatherMultiplier (temperature : float) : float :=
  calculate_weather_adjustment temperature 1.

(** The band table of the specification: lower bound inclusive, upper bound
    exclusive, first band unbounded below, last band unbounded above. *)
Inductive in_band (t : float) : float -> Prop :=
| band_below_18 : (t <? 18) = true -> in_band t 0.1
| band_18_22 : (18 <=? t) = true -> (t <? 22) = true -> in_band t 0.3
| band_22_26 : (22 <=? t) = true -> (t <? 26) = true -> in_band t 0.6
| band_26_30 : (26 <=? t) = true -> (t <? 30) = true -> in_band t 0.8
| band_30_35 : (30 <=? t) = true -> (t <? 35) = true -> in_band t 1.0
| band_from_35 : (35 <=? t) = true -> in_band t 1.3.

(** The multiplier that goes with each label of the weather card. *)
Definition label_multiplier (d : weather_label) : float :=
  match d with
  | Very_Cold => 0.1
  | Cool => 0.3
  | Comfortable => 0.6
  | Warm => 0.8
  | Hot => 1.0
  | Very_Hot => 1.3
  end.

(** The base profile of the specification: one value per category. *)
Record BaseProfile : Type := {
  lighting : float;
  fan_or_ac : float;
  appliances : float;
  water_heater : float;
  refrigerator : float
}.

(** The table of section 4.1 of the specification, row by row. *)
Definition table_4_1 : list (string * string * BaseProfile) :=
  [ ("flat", "1BHK", Build_BaseProfile 1.5 4.0 3.5 2.0 1.8);
    ("flat", "2BHK", Build_BaseProfile 2.2 6.0 4.5 2.5 2.0);
    ("flat", "3BHK", Build_BaseProfile 3.0 8.0 6.0 3.0 2.2);
    ("tenement", "1BHK", Build_BaseProfile 1.8 5.0 3.0 1.5 1.6);
    ("tenement", "2BHK", Build_BaseProfile 2.5 7.0 4.0 2.0 1.8);
    ("tenement", "3BHK", Build_BaseProfile 3.5 9.0 5.5 2.5 2.0) ].

(** A profile as the dictionary the code returns for it. *)
Definition profile_dict (p : BaseProfile) : Dict.t float :=
  [ ("lighting", lighting p); ("fan_ac", fan_or_ac p);
    ("appliances", appliances p); ("water_heater", water_heater p);
    ("refrigerator", refrigerator p) ].

(** The daily breakdown the specification describes for a profile, a
    temperature multiplier and a summation. *)
Definition breakdown_dict (alg : sum_algorithm) (p : BaseProfile) (m : float)
  : Dict.t float :=
  [ ("lighting", lighting p); ("fan_ac", fan_or_ac p * m);
    ("appliances", appliances p); ("water_heater", water_heater p);
    ("refrigerator", refrigerator p);
    ("total", py_sum alg [ lighting p; fan_or_ac p * m; appliances p;
                           water_heater p; refrigerator p ]) ].

(** A value that is not NaN. *)
Definition is_number (x : float) : Prop := is_nan x = false.

(** The rows of a flat/2BHK week with two equally hot days. *)
Definition sample_week : list weekly_row :=
  match week_at Sequential "flat" "2BHK" [25; 31; 25; 31; 25; 25; 25] with
  | Ok rows => rows
  | Raise _ => []
  end.

(** Position of a label in the order of the bands. *)
Definition label_index (d : weather_label) : nat :=
  match d with
  | Very_Cold => 0
  | Cool => 1
  | Comfortable => 2
  | Warm => 3
  | Hot => 4
  | Very_Hot => 5
  end.

(** The row of [weekly_data] that a day with a given profile and
    temperature contributes. *)
Definition row_of (alg : sum_algorithm) (p : BaseProfile) (day : string)
  (t : float) : weekly_row :=
  let m := weatherMultiplier t in
  {| Day := day;
     Temperature := t;
     Total_Energy := py_sum alg [ lighting p; fan_or_ac p * m; appliances p;
                                  water_heater p; refrigerator p ];
     Lighting := lighting p;
     Fan_AC := fan_or_ac p * m;
     Appliances := appliances p;
     Water_Heater := water_heater p;
     Refrigerator := refrigerator p |}.

(** What it means for a float to be the sum of a column, whatever the order
    and the grouping of the additions: an [addition] is a way of adding up
    its terms with [+]. *)
Inductive addition : Type :=
| Term (x : float)
| Plus (a b : addition).

Fixpoint addition_value (e : addition) : float :=
  match e with
  | Term x => x
  | Plus a b => addition_value a + addition_value b
  end.

Fixpoint addition_terms (e : addition) : list float :=
  match e with
  | Term x => [x]
  | Plus a b => addition_terms a ++ addition_terms b
  end.

(** [s] is obtained by adding up with [+] the values of [col], each one
    exactly once, in some order and grouping, possibly from a zero start. *)
Definition adds_up (col : list float) (s : float) : Prop :=
  exists e zeros,
    addition_value e = s
    /\ Forall (fun z => is_zero z = true) zeros
    /\ Permutation (addition_terms e) (zeros ++ col).

(** The ten recommendations in the order of the source. *)
Definition recommendation_catalogue : list recommendation :=
  [ Ceiling_fans; Solar_water_heater; Insulation;
    LED_lights; Five_star_appliances; Timer_water_heaters;
    Rainwater_harvesting; Plant_trees;
    Smart_power_strips; AC_at_24 ].

(** The condition under which each recommendation is to be shown: the
    three hot-week items when the average temperature is above 30, the three
    efficiency items when the average energy is above 15, the two tenement
    items when the housing type is "tenement", the two general items
    always. *)
Definition shown_when (avg_temp avg_energy : float) (flat_tenement : string)
  (x : recommendation) : bool :=
  match x with
  | Ceiling_fans | Solar_water_heater | Insulation => 30 <? avg_temp
  | LED_lights | Five_star_appliances | Timer_water_heaters =>
      15 <? avg_energy
  | Rainwater_harvesting | Plant_trees => String.eqb flat_tenement "tenement"
  | Smart_power_strips | AC_at_24 => true
  end.

(** A string with at least one code point that is not whitespace. *)
Definition has_text (s : py_str) : bool :=
  existsb (fun c => negb (is_whitespace c)) s.

(** The total of a profile in the band of a label. *)
Definition band_total (alg : sum_algorithm) (p : BaseProfile)
  (d : weather_label) : float :=
  py_sum alg [ lighting p; fan_or_ac p * label_multiplier d; appliances p;
               water_heater p; refrigerator p ].

(** The categories of a base profile. *)
Definition categories : list string :=
  ["lighting"; "fan_ac"; "appliances"; "water_heater"; "refrigerator"].

(** The thresholds of the two band cascades. *)
Definition thresholds : list float := [18; 22; 26; 30; 35].

(** * Properties *)

(** ** The order of binary64 numbers

    The comparisons [<?] and [<=?] of primitive floats are specified by
    [SFcompare] on [spec_float].  Away from NaN this comparison is the
    lexicographic comparison of a rank made of the sign class, the exponent
    and the mantissa, from which the usual order laws follow. *)

Module FloatOrder.

Definition lex3 (p q : Z * Z * Z) : comparison :=
  let '(a1, b1, c1) := p in
  let '(a2, b2, c2) := q in
  match (a1 ?= a2)%Z with
  | Eq => match (b1 ?= b2)%Z with
          | Eq => (c1 ?= c2)%Z
          | c => c
          end
  | c => c
  end.

Definition rank (x : spec_float) : Z * Z * Z :=
  match x with
  | S754_nan => (0, 0, 0)%Z
  | S754_zero _ => (0, 0, 0)%Z
  | S754_infinity true => (-2, 0, 0)%Z
  | S754_infinity false => (2, 0, 0)%Z
  | S754_finite true m e => (-1, - e, Z.neg m)%Z
  | S754_finite false m e => (1, e, Z.pos m)%Z
  end.

Definition SFis_nan (x : spec_float) : bool :=
  match x with S754_nan => true | _ => false end.

Lemma lex3_Lt (p q : Z * Z * Z) :
  lex3 p q = Lt <->
  (let '(a1, b1, c1) := p in
   let '(a2, b2, c2) := q in
   a1 < a2 \/ (a1 = a2 /\ (b1 < b2 \/ (b1 = b2 /\ c1 < c2))))%Z.
Proof.
  destruct p as [[a1 b1] c1], q as [[a2 b2] c2]; simpl.
  destruct (Z.compare_spec a1 a2); [destruct (Z.compare_spec b1 b2)|..];
    try rewrite Z.compare_lt_iff; split; intros;
    try lia; try discriminate; try reflexivity.
Qed.

Lemma lex3_Eq (p q : Z * Z * Z) : lex3 p q = Eq <-> p = q.
Proof.
  destruct p as [[a1 b1] c1], q as [[a2 b2] c2]; simpl.
  destruct (Z.compare_spec a1 a2); [destruct (Z.compare_spec b1 b2)|..];
    try rewrite Z.compare_eq_iff; split; intros E;
    try discriminate; try (inversion E; lia); subst; reflexivity.
Qed.

Lemma lex3_antisym (p q : Z * Z * Z) : lex3 q p = CompOpp (lex3 p q).
Proof.
  destruct p as [[a1 b1] c1], q as [[a2 b2] c2]; simpl.
  rewrite (Z.compare_antisym a1 a2), (Z.compare_antisym b1 b2),
    (Z.compare_antisym c1 c2).
  destruct (a1 ?= a2)%Z, (b1 ?= b2)%Z; reflexivity.
Qed.

Lemma SFcompare_rank (x y : spec_float) :
  SFis_nan x = false -> SFis_nan y = false ->
  SFcompare x y = Some (lex3 (rank x) (rank y)).
Proof.
  destruct x as [sx|sx| |sx mx ex], y as [sy|sy| |sy my ey];
    try discriminate; intros _ _;
    try destruct sx; try destruct sy; try reflexivity.
  simpl. rewrite Z.compare_opp, (Z.compare_antisym ex ey).
  destruct (ex ?= ey)%Z; reflexivity.
Qed.

Lemma Prim2SF_nan (x : float) : SFis_nan (Prim2SF x) = is_nan x.
Proof.
  unfold Prim2SF. destruct (is_nan x); [reflexivity|].
  destruct (is_zero x); [reflexivity|].
  destruct (is_infinity x); [reflexivity|].
  destruct (Z.frexp x) as [r e].
  destruct (shr_fexp _ _ _ _ _) as [shr e'].
  destruct (shr_m shr); reflexivity.
Qed.

(** A comparison that succeeds has compared two numbers. *)
Lemma ltb_not_nan (x y : float) :
  (x <? y) = true -> is_nan x = false /\ is_nan y = false.
Proof.
  rewrite ltb_spec, <- !Prim2SF_nan. unfold SFltb.
  destruct (Prim2SF x), (Prim2SF y); simpl; try discriminate; auto.
Qed.

Lemma leb_not_nan (x y : float) :
  (x <=? y) = true -> is_nan x = false /\ is_nan y = false.
Proof.
  rewrite leb_spec, <- !Prim2SF_nan. unfold SFleb.
  destruct (Prim2SF x), (Prim2SF y); simpl; try discriminate; auto.
Qed.

Section Laws.
Variables x y : float.
Hypothesis Hx : is_nan x = false.
Hypothesis Hy : is_nan y = false.

Lemma cmp_xy : SFcompare (Prim2SF x) (Prim2SF y)
             = Some (lex3 (rank (Prim2SF x)) (rank (Prim2SF y))).
Proof. apply SFcompare_rank; rewrite Prim2SF_nan; assumption. Qed.

Lemma cmp_yx : SFcompare (Prim2SF y) (Prim2SF x)
             = Some (CompOpp (lex3 (rank (Prim2SF x)) (rank (Prim2SF y)))).
Proof.
  rewrite <- lex3_antisym.
  apply SFcompare_rank; rewrite Prim2SF_nan; assumption.
Qed.

(** On numbers, [x < y] fails exactly when [y <= x]. *)
Lemma ltb_negb_leb : (x <? y) = negb (y <=? x).
Proof.
  rewrite ltb_spec, leb_spec. unfold SFltb, SFleb.
  rewrite cmp_xy, cmp_yx.
  destruct (lex3 _ _); reflexivity.
Qed.

Lemma leb_negb_ltb : (x <=? y) = negb (y <? x).
Proof.
  rewrite ltb_spec, leb_spec. unfold SFltb, SFleb.
  rewrite cmp_xy, cmp_yx.
  destruct (lex3 _ _); reflexivity.
Qed.

Lemma ltb_leb : (x <? y) = true -> (x <=? y) = true.
Proof.
  rewrite ltb_spec, leb_spec. unfold SFltb, SFleb.
  destruct (SFcompare _ _) as [[]|]; auto.
Qed.
End Laws.

Lemma leb_refl (x : float) : is_nan x = false -> (x <=? x) = true.
Proof.
  intros Hx. rewrite leb_spec. unfold SFleb.
  rewrite SFcompare_rank by (rewrite Prim2SF_nan; assumption).
  replace (lex3 _ _) with Eq; [reflexivity|].
  symmetry. apply lex3_Eq. reflexivity.
Qed.

Lemma ltb_iff (x y : float) :
  is_nan x = false -> is_nan y = false ->
  ((x <? y) = true <-> lex3 (rank (Prim2SF x)) (rank (Prim2SF y)) = Lt).
Proof.
  intros Hx Hy. rewrite ltb_spec. unfold SFltb.
  rewrite SFcompare_rank by (rewrite Prim2SF_nan; assumption).
  destruct (lex3 _ _); split; congruence.
Qed.

Lemma leb_iff (x y : float) :
  is_nan x = false -> is_nan y = false ->
  ((x <=? y) = true <->
   lex3 (rank (Prim2SF x)) (rank (Prim2SF y)) = Lt
   \/ rank (Prim2SF x) = rank (Prim2SF y)).
Proof.
  intros Hx Hy. rewrite leb_spec. unfold SFleb.
  rewrite SFcompare_rank by (rewrite Prim2SF_nan; assumption).
  rewrite <- lex3_Eq.
  destruct (lex3 _ _); split; intros; try tauto; try congruence.
  destruct H; discriminate.
Qed.

Ltac to_ranks :=
  repeat match goal with
  | H : (_ <? _) = true |- _ =>
      let N := fresh in
      pose proof (ltb_not_nan _ _ H) as N; destruct N;
      apply ltb_iff in H; [rewrite lex3_Lt in H | assumption..]
  | H : (_ <=? _) = true |- _ =>
      let N := fresh in
      pose proof (leb_not_nan _ _ H) as N; destruct N;
      apply leb_iff in H; [rewrite lex3_Lt in H | assumption..]
  end.

Ltac order_by_rank x y z :=
  to_ranks;
  destruct (rank (Prim2SF x)) as [[? ?] ?],
           (rank (Prim2SF y)) as [[? ?] ?],
           (rank (Prim2SF z)) as [[? ?] ?];
  repeat match goal with
  | H : _ \/ (_, _, _) = (_, _, _) |- _ =>
      destruct H as [H|H]; [|inversion H; clear H; subst]
  end.

Lemma leb_trans (x y z : float) :
  (x <=? y) = true -> (y <=? z) = true -> (x <=? z) = true.
Proof.
  intros Hxy Hyz.
  destruct (leb_not_nan _ _ Hxy) as [Nx _], (leb_not_nan _ _ Hyz) as [_ Nz].
  apply leb_iff; [assumption..|]. rewrite lex3_Lt.
  order_by_rank x y z; try (left; lia); try (right; reflexivity);
    left; assumption.
Qed.

Lemma ltb_leb_trans (x y z : float) :
  (x <? y) = true -> (y <=? z) = true -> (x <? z) = true.
Proof.
  intros Hxy Hyz.
  destruct (ltb_not_nan _ _ Hxy) as [Nx _], (leb_not_nan _ _ Hyz) as [_ Nz].
  apply ltb_iff; [assumption..|]. rewrite lex3_Lt.
  order_by_rank x y z; try lia; assumption.
Qed.

Lemma leb_ltb_trans (x y z : float) :
  (x <=? y) = true -> (y <? z) = true -> (x <? z) = true.
Proof.
  intros Hxy Hyz.
  destruct (leb_not_nan _ _ Hxy) as [Nx _], (ltb_not_nan _ _ Hyz) as [_ Nz].
  apply ltb_iff; [assumption..|]. rewrite lex3_Lt.
  order_by_rank x y z; try lia; assumption.
Qed.

End FloatOrder.

(** ** The configuration table *)

Lemma valid_configuration_inv (h r : string) :
  valid_configuration h r = true ->
  (h = "flat" \/ h = "tenement") /\ (r = "1BHK" \/ r = "2BHK" \/ r = "3BHK").
Proof.
  unfold valid_configuration, housing_types, room_configs; cbn [existsb].
  rewrite andb_true_iff, !orb_true_iff, !String.eqb_eq.
  intuition discriminate.
Qed.

Lemma valid_in_table (h r : string) :
  valid_configuration h r = true -> exists p, In (h, r, p) table_4_1.
Proof.
  intros V. apply valid_configuration_inv in V.
  destruct V as [[-> | ->] [-> | [-> | ->]]]; eexists; simpl;
    [ left | right; left | do 2 right; left | do 3 right; left
    | do 4 right; left | do 5 right; left ]; reflexivity.
Qed.

Lemma table_base_energy (h r : string) (p : BaseProfile) :
  In (h, r, p) table_4_1 ->
  valid_configuration h r = true /\ calculate_base_energy h r = profile_dict p.
Proof.
  simpl. intros H.
  repeat (destruct H as [H | H]; [inversion H; subst; split; reflexivity|]).
  contradiction.
Qed.

Lemma invalid_base_energy (h r : string) :
  valid_configuration h r = false -> calculate_base_energy h r = [].
Proof.
  unfold valid_configuration, housing_types, room_configs,
    calculate_base_energy, Dict.get, base_consumption.
  cbn [existsb Dict.lookup].
  rewrite (String.eqb_sym h "flat"), (String.eqb_sym h "tenement"),
    (String.eqb_sym r "1BHK"), (String.eqb_sym r "2BHK"),
    (String.eqb_sym r "3BHK").
  destruct ("flat" =? h)%string; cbn [orb andb Dict.lookup];
    [| destruct ("tenement" =? h)%string; cbn [orb andb Dict.lookup];
       [| reflexivity ] ];
    destruct ("1BHK" =? r)%string; cbn [orb]; try discriminate;
    destruct ("2BHK" =? r)%string; cbn [orb]; try discriminate;
    destruct ("3BHK" =? r)%string; cbn [orb]; try discriminate;
    reflexivity.
Qed.

(** C1: for each of the six valid (housing type, room configuration) pairs,
    [calculate_base_energy] returns exactly the five values of the row of the
    table of section 4.1 for that pair, in the categories lighting, fan_ac,
    appliances, water_heater and refrigerator; every valid pair has a row,
    and flat/2BHK yields 2.2, 6.0, 4.5, 2.5 and 2.0. *)
Theorem base_profile_table :
  (forall h r p, In (h, r, p) table_4_1 ->
     valid_configuration h r = true
     /\ calculate_base_energy h r = profile_dict p)
  /\ (forall h r, valid_configuration h r = true ->
        exists p, In (h, r, p) table_4_1
                  /\ calculate_base_energy h r = profile_dict p)
  /\ calculate_base_energy "flat" "2BHK"
     = [ ("lighting", 2.2); ("fan_ac", 6.0); ("appliances", 4.5);
         ("water_heater", 2.5); ("refrigerator", 2.0) ].
Proof.
  split; [exact table_base_energy|]. split; [|reflexivity].
  intros h r V. destruct (valid_in_table h r V) as [p Hp].
  exists p. split; [assumption|].
  apply (table_base_energy h r p Hp).
Qed.

Lemma base_profile_table_witness :
  (valid_configuration "flat" "1BHK" = true
   /\ calculate_base_energy "flat" "1BHK"
      = profile_dict (Build_BaseProfile 1.5 4.0 3.5 2.0 1.8))
  /\ (exists p, In ("tenement", "3BHK", p) table_4_1
                /\ calculate_base_energy "tenement" "3BHK" = profile_dict p).
Proof.
  split.
  - apply (proj1 base_profile_table "flat" "1BHK"). simpl. left. reflexivity.
  - apply (proj1 (proj2 base_profile_table) "tenement" "3BHK"). reflexivity.
Defined.

(** ** The temperature bands *)

(** Case analysis on the five comparisons of a cascade over [t]. *)
Ltac cascade t :=
  destruct (t <? 18) eqn:?; [|
  destruct (t <? 22) eqn:?; [|
  destruct (t <? 26) eqn:?; [|
  destruct (t <? 30) eqn:?; [|
  destruct (t <? 35) eqn:? ]]]].

(** Both cascades of the source test the same thresholds in the same order,
    so the adjustment is the base value times the multiplier of the label. *)
Lemma adjustment_by_label (t b : float) :
  calculate_weather_adjustment t b = b * label_multiplier (weather_desc t).
Proof.
  unfold calculate_weather_adjustment, weather_desc, weather_description.
  cascade t; reflexivity.
Qed.

Lemma multiplier_by_label (t : float) :
  weatherMultiplier t = label_multiplier (weather_desc t).
Proof.
  unfold weatherMultiplier, calculate_weather_adjustment, weather_desc,
    weather_description.
  cascade t; reflexivity.
Qed.

Lemma adjustment_factor (t b : float) :
  calculate_weather_adjustment t b = b * weatherMultiplier t.
Proof.
  rewrite multiplier_by_label. apply adjustment_by_label.
Qed.

Lemma label_multiplier_inj (d1 d2 : weather_label) :
  label_multiplier d1 = label_multiplier d2 -> d1 = d2.
Proof.
  intros E.
  assert (Q : (label_multiplier d1 =? label_multiplier d2) = true).
  { rewrite E. destruct d2; reflexivity. }
  destruct d1, d2; try reflexivity; vm_compute in Q; discriminate.
Qed.

(** A temperature at or above a threshold is not below it, nor below any
    smaller threshold. *)
Lemma at_least_not_below (k k' t : float) :
  (k <=? k') = true -> (k' <=? t) = true -> (t <? k) = false.
Proof.
  intros Hk Ht.
  pose proof (FloatOrder.leb_trans _ _ _ Hk Ht) as Hkt.
  destruct (FloatOrder.leb_not_nan _ _ Hkt) as [Nk Nt].
  rewrite (FloatOrder.ltb_negb_leb t k Nt Nk), Hkt. reflexivity.
Qed.

(** A number that is not below a threshold is at or above it. *)
Lemma not_below_at_least (k t : float) :
  is_nan k = false -> is_nan t = false ->
  (t <? k) = false -> (k <=? t) = true.
Proof.
  intros Nk Nt H.
  rewrite (FloatOrder.leb_negb_ltb k t Nk Nt), H. reflexivity.
Qed.

Lemma in_band_multiplier (t m : float) :
  in_band t m -> weatherMultiplier t = m.
Proof.
  unfold weatherMultiplier, calculate_weather_adjustment.
  intros B; inversion B; subst;
    repeat match goal with
    | H : (?k <=? t) = true |- _ =>
        rewrite ?(at_least_not_below 18 k t eq_refl H),
                ?(at_least_not_below 22 k t eq_refl H),
                ?(at_least_not_below 26 k t eq_refl H),
                ?(at_least_not_below 30 k t eq_refl H),
                ?(at_least_not_below 35 k t eq_refl H);
        clear H
    | H : (t <? _) = true |- _ => rewrite H; clear H
    end; reflexivity.
Qed.

Lemma multiplier_in_band (t : float) :
  is_nan t = false -> in_band t (weatherMultiplier t).
Proof.
  intros Nt. unfold weatherMultiplier, calculate_weather_adjustment.
  cascade t;
    repeat match goal with
    | H : (t <? ?k) = false |- _ =>
        apply (not_below_at_least k t eq_refl Nt) in H
    end.
  - apply band_below_18; assumption.
  - apply band_18_22; assumption.
  - apply band_22_26; assumption.
  - apply band_26_30; assumption.
  - apply band_30_35; assumption.
  - apply band_from_35; assumption.
Qed.

(** C2: the multiplier of the cascade is the one of the band table: 0.1 below
    18, 0.3 on [18, 22), 0.6 on [22, 26), 0.8 on [26, 30), 1.0 on [30, 35)
    and 1.3 from 35 on.  Every number lies in a band and gets the multiplier
    of that band; each boundary belongs to the upper band; every input, with
    no clamping, yields one of the six multipliers; and the adjustment is the
    base value times this multiplier. *)
Theorem weather_multiplier_bands :
  (forall t m, in_band t m -> weatherMultiplier t = m)
  /\ (forall t, is_nan t = false -> in_band t (weatherMultiplier t))
  /\ (forall t, In (weatherMultiplier t) [0.1; 0.3; 0.6; 0.8; 1.0; 1.3])
  /\ (weatherMultiplier 17.9 = 0.1 /\ weatherMultiplier 18.0 = 0.3
      /\ weatherMultiplier 21.99 = 0.3 /\ weatherMultiplier 22.0 = 0.6
      /\ weatherMultiplier 29.999 = 0.8 /\ weatherMultiplier 30.0 = 1.0
      /\ weatherMultiplier 34.999 = 1.0 /\ weatherMultiplier 35.0 = 1.3
      /\ weatherMultiplier (-50) = 0.1 /\ weatherMultiplier 100 = 1.3)
  /\ (forall t b, calculate_weather_adjustment t b = b * weatherMultiplier t).
Proof.
  split; [exact in_band_multiplier|].
  split; [exact multiplier_in_band|].
  split.
  - intros t. rewrite multiplier_by_label.
    destruct (weather_desc t); simpl; tauto.
  - split; [repeat split; reflexivity | exact adjustment_factor].
Qed.

Lemma weather_multiplier_bands_witness :
  weatherMultiplier 26 = 0.8 /\ in_band 33.5 (weatherMultiplier 33.5).
Proof.
  split.
  - apply (proj1 weather_multiplier_bands 26 0.8).
    apply band_26_30; reflexivity.
  - apply (proj1 (proj2 weather_multiplier_bands) 33.5). reflexivity.
Defined.

(** C10: the cascade behind the weather card and the cascade behind the
    energy multiplier place every temperature in the same band: the label is
    Very Cold, Cool, Comfortable, Warm, Hot or Very Hot exactly when the
    multiplier is 0.1, 0.3, 0.6, 0.8, 1.0 or 1.3 respectively. *)
Theorem weather_card_agrees_with_multiplier (t : float) :
  weatherMultiplier t = label_multiplier (weather_desc t)
  /\ (forall b, calculate_weather_adjustment t b
                = b * label_multiplier (weather_desc t))
  /\ (forall d, weather_desc t = d <-> weatherMultiplier t = label_multiplier d).
Proof.
  split; [apply multiplier_by_label|].
  split; [intros b; apply adjustment_by_label|].
  intros d. rewrite multiplier_by_label. split.
  - intros ->. reflexivity.
  - apply label_multiplier_inj.
Qed.

(** ** Daily estimates *)

(** The run of [calculate_daily_energy] on a configuration whose base
    dictionary is that of a profile. *)
Lemma daily_energy_of_profile (alg : sum_algorithm) (h r : string)
  (t : float) (p : BaseProfile) :
  calculate_base_energy h r = profile_dict p ->
  calculate_daily_energy alg h r t
  = Ok (Some (breakdown_dict alg p (weatherMultiplier t))).
Proof.
  intros E. unfold calculate_daily_energy, breakdown_dict. rewrite E.
  rewrite <- (adjustment_factor t (fan_or_ac p)). reflexivity.
Qed.

Lemma daily_energy_valid (alg : sum_algorithm) (h r : string) (t : float) :
  valid_configuration h r = true ->
  exists p, In (h, r, p) table_4_1
            /\ calculate_base_energy h r = profile_dict p
            /\ calculate_daily_energy alg h r t
               = Ok (Some (breakdown_dict alg p (weatherMultiplier t))).
Proof.
  intros V. destruct (valid_in_table h r V) as [p Hp].
  destruct (table_base_energy h r p Hp) as [_ E].
  exists p. repeat split; try assumption.
  apply daily_energy_of_profile; assumption.
Qed.

Lemma daily_energy_invalid (alg : sum_algorithm) (h r : string) (t : float) :
  valid_configuration h r = false ->
  calculate_daily_energy alg h r t = Ok None.
Proof.
  intros V. unfold calculate_daily_energy.
  rewrite (invalid_base_energy h r V). reflexivity.
Qed.


(** The two summations do differ on some estimates: for flat/1BHK below 18
    degrees the compensated total is 9.2 and the sequential total is the
    next float above it. *)
Example totals_of_the_two_summations :
  (exists d, calculate_daily_energy Sequential "flat" "1BHK" 10 = Ok (Some d)
             /\ Dict.getitem d "total" = Ok 9.200000000000001)
  /\ (exists d, calculate_daily_energy Compensated "flat" "1BHK" 10
                = Ok (Some d)
                /\ Dict.getitem d "total" = Ok 9.2)
  /\ 1.5 + 4.0 * 0.1 + 3.5 + 2.0 + 1.8 = 9.200000000000001
  /\ next_down 9.200000000000001 = 9.2.
Proof.
  repeat split; try (eexists; split; [vm_compute; reflexivity|]);
    vm_compute; reflexivity.
Qed.



(** C6: when the housing type or the room configuration is outside its
    enumerated domain, [calculate_base_energy] returns the empty dictionary
    and [calculate_daily_energy] returns [None]; and for no strings at all
    does either raise: the lookup is total and the estimate always ends in a
    value. *)
Theorem invalid_configuration_not_found :
  (forall h r, valid_configuration h r = false ->
     calculate_base_energy h r = []
     /\ forall alg t, calculate_daily_energy alg h r t = Ok None)
  /\ (forall alg h r t, exists v, calculate_daily_energy alg h r t = Ok v).
Proof.
  split.
  - intros h r V. split; [apply invalid_base_energy; assumption|].
    intros alg t. apply daily_energy_invalid; assumption.
  - intros alg h r t. destruct (valid_configuration h r) eqn:V.
    + destruct (daily_energy_valid alg h r t V) as (p & _ & _ & D).
      eexists. exact D.
    + exists None. apply daily_energy_invalid; assumption.
Qed.

Lemma invalid_configuration_not_found_witness :
  calculate_base_energy "villa" "2BHK" = []
  /\ forall alg t, calculate_daily_energy alg "villa" "2BHK" t = Ok None.
Proof.
  apply (proj1 invalid_configuration_not_found "villa" "2BHK"). reflexivity.
Defined.

(** C7: for a fixed valid configuration, the estimates at any two
    temperatures agree on lighting, appliances, water_heater and
    refrigerator; the two dictionaries can differ only at fan_ac and
    total. *)
Theorem other_categories_ignore_temperature (alg : sum_algorithm)
  (h r : string) (t1 t2 : float) :
  valid_configuration h r = true ->
  exists d1 d2,
    calculate_daily_energy alg h r t1 = Ok (Some d1)
    /\ calculate_daily_energy alg h r t2 = Ok (Some d2)
    /\ (forall k, In k ["lighting"; "appliances"; "water_heater";
                        "refrigerator"] ->
          exists v, Dict.lookup d1 k = Some v /\ Dict.lookup d2 k = Some v)
    /\ (forall k, k <> "fan_ac" -> k <> "total" ->
          Dict.lookup d1 k = Dict.lookup d2 k).
Proof.
  intros V.
  destruct (daily_energy_valid alg h r t1 V) as (p & Hp & E & D1).
  exists (breakdown_dict alg p (weatherMultiplier t1)),
         (breakdown_dict alg p (weatherMultiplier t2)).
  split; [exact D1|].
  split; [apply daily_energy_of_profile; exact E|].
  split.
  - intros k [<- | [<- | [<- | [<- | []]]]]; eexists; split; reflexivity.
  - intros k Hfan Htotal. unfold breakdown_dict. cbn [Dict.lookup].
    destruct (String.eqb_spec "fan_ac" k) as [Q|_]; [congruence|].
    destruct (String.eqb_spec "total" k) as [Q|_]; [congruence|].
    reflexivity.
Qed.

Lemma other_categories_ignore_temperature_witness :
  exists d1 d2,
    calculate_daily_energy Compensated "tenement" "2BHK" 12 = Ok (Some d1)
    /\ calculate_daily_energy Compensated "tenement" "2BHK" 41 = Ok (Some d2)
    /\ (forall k, In k ["lighting"; "appliances"; "water_heater";
                        "refrigerator"] ->
          exists v, Dict.lookup d1 k = Some v /\ Dict.lookup d2 k = Some v)
    /\ (forall k, k <> "fan_ac" -> k <> "total" ->
          Dict.lookup d1 k = Dict.lookup d2 k).
Proof.
  apply (other_categories_ignore_temperature Compensated "tenement" "2BHK"
           12 41).
  reflexivity.
Defined.

(** ** Monotonicity in the temperature *)

Lemma weather_desc_monotone (t1 t2 : float) :
  (t1 <=? t2) = true ->
  (label_index (weather_desc t1) <= label_index (weather_desc t2))%nat.
Proof.
  intros H.
  pose proof (fun k => FloatOrder.leb_ltb_trans t1 t2 k H) as M.
  unfold weather_desc, weather_description.
  cascade t2; cascade t1; simpl; try lia;
    match goal with
    | H2 : (t2 <? ?k) = true, H1 : (t1 <? ?k) = false |- _ =>
        rewrite (M k H2) in H1; discriminate
    end.
Qed.

Lemma label_multiplier_monotone (d1 d2 : weather_label) :
  (label_index d1 <= label_index d2)%nat ->
  (label_multiplier d1 <=? label_multiplier d2) = true.
Proof.
  destruct d1, d2; simpl; intros L; try lia; reflexivity.
Qed.

(** On the six rows of the table, a later band gives a fan_ac value and a
    total at least as large, whichever summation is in use. *)
Lemma band_totals_monotone (alg : sum_algorithm) (h r : string)
  (p : BaseProfile) (d1 d2 : weather_label) :
  In (h, r, p) table_4_1 ->
  (label_index d1 <= label_index d2)%nat ->
  (fan_or_ac p * label_multiplier d1 <=? fan_or_ac p * label_multiplier d2)
  = true
  /\ (py_sum alg [ lighting p; fan_or_ac p * label_multiplier d1;
                   appliances p; water_heater p; refrigerator p ]
      <=? py_sum alg [ lighting p; fan_or_ac p * label_multiplier d2;
                       appliances p; water_heater p; refrigerator p ])
     = true.
Proof.
  intros H L. simpl in H.
  repeat (destruct H as [H | H];
          [ inversion H; subst; clear H;
            destruct d1, d2; simpl in L; try lia;
            destruct alg; split; vm_compute; reflexivity | ]).
  contradiction.
Qed.

(** C8: the weather multiplier is non-decreasing in the temperature, and so
    are, for a fixed valid configuration, the fan_ac value and the total of
    the daily estimate. *)
Theorem estimate_monotone_in_temperature :
  (forall t1 t2, (t1 <=? t2) = true ->
     (weatherMultiplier t1 <=? weatherMultiplier t2) = true)
  /\ (forall alg h r t1 t2,
        valid_configuration h r = true -> (t1 <=? t2) = true ->
        exists d1 d2 f1 f2 s1 s2,
          calculate_daily_energy alg h r t1 = Ok (Some d1)
          /\ calculate_daily_energy alg h r t2 = Ok (Some d2)
          /\ Dict.getitem d1 "fan_ac" = Ok f1
          /\ Dict.getitem d2 "fan_ac" = Ok f2
          /\ Dict.getitem d1 "total" = Ok s1
          /\ Dict.getitem d2 "total" = Ok s2
          /\ (f1 <=? f2) = true /\ (s1 <=? s2) = true).
Proof.
  split.
  - intros t1 t2 H. rewrite !multiplier_by_label.
    apply label_multiplier_monotone, weather_desc_monotone, H.
  - intros alg h r t1 t2 V H.
    destruct (daily_energy_valid alg h r t1 V) as (p & Hp & E & D1).
    pose proof (daily_energy_of_profile alg h r t2 p E) as D2.
    pose proof (band_totals_monotone alg h r p _ _ Hp
                  (weather_desc_monotone t1 t2 H)) as [F S].
    rewrite <- !multiplier_by_label in F, S.
    do 6 eexists.
    split; [exact D1|]. split; [exact D2|].
    repeat (split; [reflexivity|]).
    split; [exact F | exact S].
Qed.

Lemma estimate_monotone_in_temperature_witness :
  (weatherMultiplier 20 <=? weatherMultiplier 33) = true
  /\ (exists d1 d2 f1 f2 s1 s2,
        calculate_daily_energy Compensated "flat" "1BHK" 17.5 = Ok (Some d1)
        /\ calculate_daily_energy Compensated "flat" "1BHK" 36 = Ok (Some d2)
        /\ Dict.getitem d1 "fan_ac" = Ok f1
        /\ Dict.getitem d2 "fan_ac" = Ok f2
        /\ Dict.getitem d1 "total" = Ok s1
        /\ Dict.getitem d2 "total" = Ok s2
        /\ (f1 <=? f2) = true /\ (s1 <=? s2) = true).
Proof.
  split.
  - apply (proj1 estimate_monotone_in_temperature 20 33). reflexivity.
  - apply (proj2 estimate_monotone_in_temperature Compensated "flat" "1BHK"
             17.5 36); reflexivity.
Defined.

(** ** The worked examples of the specification *)

(** C9, as the code computes it: for flat/2BHK at 25 degrees the estimate is
    lighting 2.2, appliances 4.5, water_heater 2.5, refrigerator 2.0 and
    total 14.8, with fan_ac the binary64 product of 6.0 and 0.6, which is
    3.5999999999999996; for tenement/1BHK at 40 degrees fan_ac is exactly 6.5
    and the total exactly 14.4. *)
Theorem worked_examples (alg : sum_algorithm) :
  calculate_daily_energy alg "flat" "2BHK" 25
  = Ok (Some [ ("lighting", 2.2); ("fan_ac", 3.5999999999999996);
               ("appliances", 4.5); ("water_heater", 2.5);
               ("refrigerator", 2.0); ("total", 14.8) ])
  /\ calculate_daily_energy alg "tenement" "1BHK" 40
     = Ok (Some [ ("lighting", 1.8); ("fan_ac", 6.5); ("appliances", 3.0);
                  ("water_heater", 1.5); ("refrigerator", 1.6);
                  ("total", 14.4) ])
  /\ 6.0 * 0.6 = 3.5999999999999996
  /\ 5.0 * 1.3 = 6.5.
Proof.
  destruct alg; repeat split; vm_compute; reflexivity.
Qed.

(** C9, as stated, fails at its first example: the fan_ac value of the
    estimate for flat/2BHK at 25 degrees is not the number 3.6, under either
    summation. *)
Lemma worked_example_fan_ac_is_not_3_6 :
  (exists d f,
     calculate_daily_energy Sequential "flat" "2BHK" 25 = Ok (Some d)
     /\ Dict.getitem d "fan_ac" = Ok f /\ f <> 3.6 /\ (f =? 3.6) = false)
  /\ (exists d f,
        calculate_daily_energy Compensated "flat" "2BHK" 25 = Ok (Some d)
        /\ Dict.getitem d "fan_ac" = Ok f /\ f <> 3.6 /\ (f =? 3.6) = false).
Proof.
  assert (N : 3.5999999999999996 <> 3.6).
  { intros E.
    assert (Q : (3.5999999999999996 =? 3.6) = true) by (rewrite E; reflexivity).
    vm_compute in Q. discriminate. }
  split;
    exists [ ("lighting", 2.2); ("fan_ac", 3.5999999999999996);
             ("appliances", 4.5); ("water_heater", 2.5);
             ("refrigerator", 2.0); ("total", 14.8) ], 3.5999999999999996;
    (split; [vm_compute; reflexivity|]);
    (split; [reflexivity|]); (split; [exact N | reflexivity]).
Qed.

(** ** The weekly summary *)

Lemma fillna_numbers (v : float) (col : list float) :
  Forall is_number col -> fillna v col = col.
Proof.
  induction 1 as [|x col Hx _ IH]; [reflexivity|].
  simpl. rewrite Hx, IH. reflexivity.
Qed.

Lemma count_valid_numbers (col : list float) :
  Forall is_number col -> count_valid col = List.length col.
Proof.
  unfold count_valid.
  induction 1 as [|x col Hx _ IH]; [reflexivity|].
  simpl. rewrite Hx. simpl. rewrite IH. reflexivity.
Qed.

Lemma nth_error_snoc (pre : list float) (x y : float) (j : nat) :
  nth_error (pre ++ [x]) j = Some y ->
  ((j < List.length pre)%nat /\ nth_error pre j = Some y)
  \/ (j = List.length pre /\ y = x).
Proof.
  intros H. destruct (Nat.lt_ge_cases j (List.length pre)) as [L | G].
  - left. rewrite nth_error_app1 in H by assumption. auto.
  - right. rewrite nth_error_app2 in H by assumption.
    destruct (j - List.length pre)%nat as [|n] eqn:D; simpl in H.
    + inversion H. split; [lia | reflexivity].
    + destruct n; discriminate.
Qed.

(** The scan keeps, at every step, the first largest item seen so far. *)
Lemma argmax_from_spec (col pre : list float) (best_i : nat) (best : float) :
  Forall is_number (pre ++ col) ->
  nth_error pre best_i = Some best ->
  (forall j x, nth_error pre j = Some x -> (x <=? best) = true) ->
  (forall j x, (j < best_i)%nat -> nth_error pre j = Some x ->
               (x <? best) = true) ->
  exists m,
    nth_error (pre ++ col) (argmax_from best_i best (List.length pre) col)
    = Some m
    /\ (forall j x, nth_error (pre ++ col) j = Some x -> (x <=? m) = true)
    /\ (forall j x,
          (j < argmax_from best_i best (List.length pre) col)%nat ->
          nth_error (pre ++ col) j = Some x -> (x <? m) = true).
Proof.
  revert pre best_i best.
  induction col as [|x rest IH]; intros pre best_i best N B Hle Hlt.
  - simpl. rewrite app_nil_r. exists best. auto.
  - assert (Nx : is_number x).
    { rewrite Forall_forall in N. apply N, in_elt. }
    assert (Nb : is_number best).
    { rewrite Forall_forall in N. apply N, in_or_app. left.
      eapply nth_error_In, B. }
    assert (Bi : (best_i < List.length pre)%nat).
    { apply nth_error_Some. rewrite B. discriminate. }
    replace (pre ++ x :: rest) with ((pre ++ [x]) ++ rest) in *
      by (rewrite <- app_assoc; reflexivity).
    cbn [argmax_from].
    replace (S (List.length pre)) with (List.length (pre ++ [x]))
      by (rewrite length_app; simpl; lia).
    destruct (x <=? best) eqn:Hx; cbn [negb].
    + apply IH; [assumption | | |].
      * rewrite nth_error_app1 by assumption. exact B.
      * intros j y Hj. apply nth_error_snoc in Hj.
        destruct Hj as [[_ Hj] | [_ ->]]; [eapply Hle, Hj | exact Hx].
      * intros j y L Hj. apply nth_error_snoc in Hj.
        destruct Hj as [[_ Hj] | [-> _]]; [eapply Hlt; eassumption | lia].
    + assert (Lx : (best <? x) = true).
      { rewrite (FloatOrder.ltb_negb_leb best x Nb Nx), Hx. reflexivity. }
      apply IH; [assumption | | |].
      * rewrite nth_error_app2 by lia. rewrite Nat.sub_diag. reflexivity.
      * intros j y Hj. apply nth_error_snoc in Hj.
        destruct Hj as [[_ Hj] | [_ ->]].
        -- apply FloatOrder.ltb_leb.
           eapply FloatOrder.leb_ltb_trans; [eapply Hle, Hj | exact Lx].
        -- apply FloatOrder.leb_refl, Nx.
      * intros j y L Hj. apply nth_error_snoc in Hj.
        destruct Hj as [[_ Hj] | [-> _]]; [| lia].
        eapply FloatOrder.leb_ltb_trans; [eapply Hle, Hj | exact Lx].
Qed.

Lemma argmax_spec (x : float) (rest : list float) :
  Forall is_number (x :: rest) ->
  exists m,
    nth_error (x :: rest) (argmax (x :: rest)) = Some m
    /\ (forall j y, nth_error (x :: rest) j = Some y -> (y <=? m) = true)
    /\ (forall j y, (j < argmax (x :: rest))%nat ->
                    nth_error (x :: rest) j = Some y -> (y <? m) = true).
Proof.
  intros N. inversion N as [|? ? Nx _]; subst.
  apply (argmax_from_spec rest [x] 0 x N); [reflexivity | |].
  - intros [|[|j]] y Hj; try discriminate.
    inversion Hj; subst. apply FloatOrder.leb_refl, Nx.
  - intros j y L. lia.
Qed.

Section SummaryProperties.

Variable column_sum : list float -> float.

Lemma idxmax_numbers (col : list float) :
  col <> [] -> Forall is_number col ->
  Series_idxmax col = Ok (argmax col).
Proof.
  intros NE N. unfold Series_idxmax.
  rewrite (count_valid_numbers col N), (fillna_numbers _ col N).
  destruct col; [congruence | reflexivity].
Qed.

(** C5, as the code behaves: on an empty sequence of rows the summary
    section is skipped by its guard, so the outcome is the absent result: no
    summary of zeros, NaN or infinity is produced, and no error is raised
    either; a summary that is produced comes from at least one row, its
    average being a division by a positive count. *)
Theorem empty_week_has_no_summary :
  weekly_summary column_sum [] = Ok None
  /\ (forall weekly_data s,
        weekly_summary column_sum weekly_data = Ok (Some s) ->
        weekly_data <> []
        /\ (0 < count_valid (map Total_Energy weekly_data))%nat
        /\ Average_Daily_Energy s
           = Series_sum column_sum (map Total_Energy weekly_data)
             / float_of_nat (count_valid (map Total_Energy weekly_data))).
Proof.
  split; [reflexivity|].
  intros weekly_data s H.
  destruct weekly_data as [|row0 rest]; [discriminate|].
  split; [discriminate|].
  unfold weekly_summary, Series_idxmax in H.
  remember (map Total_Energy (row0 :: rest)) as col eqn:Ecol.
  destruct (count_valid col) as [|n] eqn:C; [discriminate|].
  cbn [bind] in H.
  destruct (nth_error (row0 :: rest) _); [|discriminate].
  inversion H; subst s; clear H. cbn [Average_Daily_Energy].
  unfold Series_mean, Series_sum. rewrite C.
  split; [lia | reflexivity].
Qed.

End SummaryProperties.

(** C5, as stated, fails on the empty sequence: the summary section does not
    signal an error there, it is silently skipped. *)
Lemma empty_week_signals_no_error :
  weekly_summary sum_sequential [] = Ok None
  /\ ~ (exists e, weekly_summary sum_sequential [] = Raise e).
Proof.
  split; [reflexivity|].
  intros [e H]. cbn [weekly_summary] in H. discriminate H.
Qed.

(** Adding from left to right, starting from zero, is one way of adding
    up. *)
Lemma fold_left_addition (col : list float) (e : addition) :
  exists e',
    addition_value e' = fold_left PrimFloat.add col (addition_value e)
    /\ addition_terms e' = addition_terms e ++ col.
Proof.
  revert e. induction col as [|x rest IH]; intros e.
  - exists e. rewrite app_nil_r. split; reflexivity.
  - destruct (IH (Plus e (Term x))) as (e' & V & T).
    exists e'. split; [exact V|].
    rewrite T. cbn [addition_terms]. rewrite <- app_assoc. reflexivity.
Qed.

Lemma sum_sequential_adds_up (col : list float) :
  adds_up col (sum_sequential col).
Proof.
  destruct (fold_left_addition col (Term 0)) as (e & V & T).
  exists e, [0]. split; [exact V|].
  split; [repeat constructor|].
  rewrite T. apply Permutation_refl.
Qed.

(** C4: on a non-empty sequence of N rows (day label and totals that are
    numbers), the weekly summary reports as total energy the sum of all the
    total fields, as average that total divided by N, and as peak day the
    label of the row with the largest total, the first such row on ties.
    The column is summed by the data-frame library; of its summation only
    this is used: it adds up the values of the column with float addition,
    and on the short columns of a week (up to seven values) it adds them
    from left to right.  The total is then the totals added up, and for up
    to seven rows exactly the float obtained by adding them with [+] from
    left to right. *)
Theorem weekly_summary_metrics (column_sum : list float -> float)
  (weekly_data : list weekly_row) :
  (forall col, adds_up col (column_sum col)) ->
  (forall col, (List.length col <= 7)%nat ->
               column_sum col = fold_left PrimFloat.add col 0) ->
  weekly_data <> [] ->
  Forall (fun row => is_number (Total_Energy row)) weekly_data ->
  exists s i peak,
    weekly_summary column_sum weekly_data = Ok (Some s)
    /\ adds_up (map Total_Energy weekly_data) (Total_Weekly_Energy s)
    /\ ((List.length weekly_data <= 7)%nat ->
        Total_Weekly_Energy s
        = fold_left PrimFloat.add (map Total_Energy weekly_data) 0)
    /\ Average_Daily_Energy s
       = Total_Weekly_Energy s / float_of_nat (List.length weekly_data)
    /\ nth_error weekly_data i = Some peak
    /\ Highest_Consumption_Day s = Day peak
    /\ (forall row, In row weekly_data ->
          (Total_Energy row <=? Total_Energy peak) = true)
    /\ (forall j row, (j < i)%nat -> nth_error weekly_data j = Some row ->
          (Total_Energy row <? Total_Energy peak) = true).
Proof.
  intros Adds Short NE N.
  assert (Ncol : Forall is_number (map Total_Energy weekly_data)).
  { rewrite Forall_map. exact N. }
  destruct weekly_data as [|row0 rest]; [congruence|].
  pose proof (argmax_spec (Total_Energy row0) (map Total_Energy rest) Ncol)
    as (m & Hm & Hle & Hlt).
  change (Total_Energy row0 :: map Total_Energy rest)
    with (map Total_Energy (row0 :: rest)) in *.
  rewrite nth_error_map in Hm.
  set (col := map Total_Energy (row0 :: rest)) in *.
  set (i := argmax col) in *.
  destruct (nth_error (row0 :: rest) i) as [peak|] eqn:Hpeak;
    [|discriminate].
  inversion Hm as [Em]; clear Hm.
  unfold weekly_summary. fold col.
  rewrite idxmax_numbers by (assumption || discriminate). fold i.
  cbn [bind]. rewrite Hpeak.
  eexists; exists i, peak.
  split; [reflexivity|]. cbn [Total_Weekly_Energy Average_Daily_Energy
                              Highest_Consumption_Day].
  unfold Series_sum, Series_mean.
  rewrite (fillna_numbers _ col Ncol), (count_valid_numbers col Ncol).
  split; [apply Adds|].
  split; [intros L; apply Short; unfold col; rewrite length_map; exact L|].
  split; [unfold col; rewrite length_map; reflexivity|].
  split; [exact Hpeak|]. split; [reflexivity|].
  rewrite Em.
  split.
  - intros row Hin. apply In_nth_error in Hin. destruct Hin as [j Hj].
    apply (Hle j). unfold col. rewrite nth_error_map, Hj. reflexivity.
  - intros j row L Hj.
    apply (Hlt j); [exact L|].
    unfold col. rewrite nth_error_map, Hj. reflexivity.
Qed.

Lemma weekly_summary_metrics_witness :
  exists s i peak,
    weekly_summary sum_sequential sample_week = Ok (Some s)
    /\ adds_up (map Total_Energy sample_week) (Total_Weekly_Energy s)
    /\ ((List.length sample_week <= 7)%nat ->
        Total_Weekly_Energy s
        = fold_left PrimFloat.add (map Total_Energy sample_week) 0)
    /\ Average_Daily_Energy s
       = Total_Weekly_Energy s / float_of_nat (List.length sample_week)
    /\ nth_error sample_week i = Some peak
    /\ Highest_Consumption_Day s = Day peak
    /\ (forall row, In row sample_week ->
          (Total_Energy row <=? Total_Energy peak) = true)
    /\ (forall j row, (j < i)%nat -> nth_error sample_week j = Some row ->
          (Total_Energy row <? Total_Energy peak) = true).
Proof.
  apply (weekly_summary_metrics sum_sequential sample_week).
  - exact sum_sequential_adds_up.
  - intros col L. reflexivity.
  - vm_compute. discriminate.
  - vm_compute. repeat constructor.
Defined.

Lemma empty_week_has_no_summary_witness :
  sample_week <> []
  /\ (0 < count_valid (map Total_Energy sample_week))%nat
  /\ 15.485714285714284
     = Series_sum sum_sequential (map Total_Energy sample_week)
       / float_of_nat (count_valid (map Total_Energy sample_week)).
Proof.
  apply (proj2 (empty_week_has_no_summary sum_sequential) sample_week
           {| Total_Weekly_Energy := 108.39999999999999;
              Average_Daily_Energy := 15.485714285714284;
              Estimated_Monthly_Bill := 2796.7199999999998;
              Highest_Consumption_Day := "Tuesday" |}).
  vm_compute. reflexivity.
Defined.

(** The week with two equally hot days: the first of them is the peak. *)
Example sample_week_summary :
  weekly_summary sum_sequential sample_week
  = Ok (Some {| Total_Weekly_Energy := 108.39999999999999;
                Average_Daily_Energy := 15.485714285714284;
                Estimated_Monthly_Bill := 2796.7199999999998;
                Highest_Consumption_Day := "Tuesday" |}).
Proof. vm_compute. reflexivity. Qed.

(** ** When the dashboard has no rows *)

Lemma collect_week_without_info (alg : sum_algorithm) (h r : string)
  (weekly_data : list weekly_row) (day_temperatures : list (string * float)) :
  collect_week alg false h r weekly_data day_temperatures = Ok weekly_data.
Proof.
  induction day_temperatures as [|[day t] rest IH]; [reflexivity|].
  simpl. exact IH.
Qed.

Lemma collect_week_invalid (alg : sum_algorithm) (info_complete : bool)
  (h r : string) (weekly_data : list weekly_row)
  (day_temperatures : list (string * float)) :
  valid_configuration h r = false ->
  collect_week alg info_complete h r weekly_data day_temperatures
  = Ok weekly_data.
Proof.
  intros V.
  induction day_temperatures as [|[day t] rest IH]; [reflexivity|].
  cbn [collect_week]. unfold append_day.
  rewrite (daily_energy_invalid alg h r t V).
  destruct info_complete; exact IH.
Qed.

(** A valid configuration with the information filled in gives one row per
    day, in the order of the days. *)
Lemma collect_week_valid (alg : sum_algorithm) (h r : string)
  (day_temperatures : list (string * float)) (weekly_data : list weekly_row) :
  valid_configuration h r = true ->
  exists rows,
    collect_week alg true h r weekly_data day_temperatures
    = Ok (weekly_data ++ rows)
    /\ map Day rows = map fst day_temperatures.
Proof.
  intros V. revert weekly_data.
  induction day_temperatures as [|[day t] rest IH]; intros weekly_data.
  - exists []. rewrite app_nil_r. split; reflexivity.
  - cbn [collect_week]. unfold append_day.
    destruct (daily_energy_valid alg h r t V) as (p & _ & _ & D).
    rewrite D. cbn.
    match goal with
    | |- context [collect_week _ _ _ _ (weekly_data ++ [?row]) _] =>
        destruct (IH (weekly_data ++ [row])) as (rows & E & M);
        exists (row :: rows)
    end.
    rewrite E, <- app_assoc. split; [reflexivity|].
    cbn [map Day fst]. rewrite M. reflexivity.
Qed.

(** * Further properties of the code *)

(** ** Configurations *)

Lemma profile_dict_lookup (p : BaseProfile) (k : string) (v : float) :
  Dict.lookup (profile_dict p) k = Some v ->
  (k = "lighting" /\ v = lighting p) \/ (k = "fan_ac" /\ v = fan_or_ac p)
  \/ (k = "appliances" /\ v = appliances p)
  \/ (k = "water_heater" /\ v = water_heater p)
  \/ (k = "refrigerator" /\ v = refrigerator p).
Proof.
  unfold profile_dict. cbn [Dict.lookup].
  repeat match goal with
  | |- context [String.eqb ?a k] =>
      destruct (String.eqb_spec a k) as [<- | _];
      [intros H; inversion H; tauto|]
  end.
  discriminate.
Qed.

(** The configuration decides alone whether there is an estimate: the base
    dictionary is non-empty, and the daily estimate is a breakdown rather
    than [None], exactly for the six pairs of the table; the match on the
    keys is exact, so any other spelling gives no estimate. *)
Theorem estimate_exists_iff_valid (alg : sum_algorithm) (h r : string)
  (t : float) :
  Dict.truthy (calculate_base_energy h r) = valid_configuration h r
  /\ ((exists d, calculate_daily_energy alg h r t = Ok (Some d))
      <-> valid_configuration h r = true).
Proof.
  destruct (valid_configuration h r) eqn:V.
  - destruct (daily_energy_valid alg h r t V) as (p & _ & E & D).
    rewrite E. split; [reflexivity|].
    split; [reflexivity | intros _; eexists; exact D].
  - rewrite (invalid_base_energy h r V), (daily_energy_invalid alg h r t V).
    split; [reflexivity|].
    split; [intros [d H]; discriminate H | discriminate].
Qed.

(** Whatever the two strings, every entry of the dictionary returned by
    [calculate_base_energy] is one of the five categories with a finite,
    strictly positive value. *)
Theorem base_values_positive (h r k : string) (v : float) :
  Dict.lookup (calculate_base_energy h r) k = Some v ->
  In k categories /\ (0 <? v) = true /\ is_finite v = true.
Proof.
  destruct (valid_configuration h r) eqn:V.
  - destruct (valid_in_table h r V) as [p Hp].
    destruct (table_base_energy h r p Hp) as [_ E]. rewrite E.
    intros L. apply profile_dict_lookup in L.
    simpl in Hp.
    repeat (destruct Hp as [Hp | Hp];
            [ inversion Hp; subst; clear Hp;
              repeat (destruct L as [[-> ->] | L]);
              try (destruct L as [-> ->]);
              (split; [simpl; tauto | split; reflexivity]) | ]).
    contradiction.
  - rewrite (invalid_base_energy h r V). discriminate.
Qed.

Lemma base_values_positive_witness :
  In "fan_ac" categories /\ (0 <? 7.0) = true /\ is_finite 7.0 = true.
Proof.
  apply (base_values_positive "tenement" "2BHK" "fan_ac" 7.0). reflexivity.
Defined.

(** ** Temperatures at the edges *)

Lemma nan_not_below (t k : float) : is_nan t = true -> (t <? k) = false.
Proof.
  intros N. destruct (t <? k) eqn:L; [|reflexivity].
  destruct (FloatOrder.ltb_not_nan _ _ L) as [N' _]. congruence.
Qed.

(** A temperature that is not a number fails every comparison of the cascade
    and so lands in the last branch: the adjustment is the base value times
    1.3, and a valid configuration is estimated as on a very hot day. *)
Theorem nan_temperature_is_very_hot (t : float) :
  is_nan t = true ->
  (forall b, calculate_weather_adjustment t b = b * 1.3)
  /\ weather_desc t = Very_Hot
  /\ (forall alg h r, valid_configuration h r = true ->
        calculate_daily_energy alg h r t
        = calculate_daily_energy alg h r 35).
Proof.
  intros N.
  assert (D : weather_desc t = Very_Hot).
  { unfold weather_desc, weather_description.
    rewrite !(nan_not_below t _ N). reflexivity. }
  split; [|split; [exact D|]].
  - intros b. rewrite adjustment_by_label, D. reflexivity.
  - intros alg h r V.
    destruct (daily_energy_valid alg h r t V) as (p & _ & E & ->).
    rewrite (daily_energy_of_profile alg h r 35 p E).
    rewrite (multiplier_by_label t), D. reflexivity.
Qed.

Lemma nan_temperature_is_very_hot_witness :
  (forall b, calculate_weather_adjustment nan b = b * 1.3)
  /\ weather_desc nan = Very_Hot
  /\ (forall alg h r, valid_configuration h r = true ->
        calculate_daily_energy alg h r nan
        = calculate_daily_energy alg h r 35).
Proof.
  apply (nan_temperature_is_very_hot nan). reflexivity.
Defined.

(** On the integers of the slider, 10 to 45, the float cascades decide as
    the integer comparisons of the source do: the label, the adjustment and
    the tips are those of the integer, and the float is a number. *)
Theorem slider_values_as_integers (z : Z) :
  (10 <= z <= 45)%Z ->
  weather_desc (slider_value z) = weather_desc_int z
  /\ (forall b, calculate_weather_adjustment (slider_value z) b
                = b * label_multiplier (weather_desc_int z))
  /\ day_tip (slider_value z)
     = (if (30 <? z)%Z then Hot_Day_Tips
        else if (z <? 20)%Z then Cold_Day_Tips else Comfortable_Day_Tips)
  /\ is_number (slider_value z).
Proof.
  intros Hz.
  assert (E : weather_desc (slider_value z) = weather_desc_int z
              /\ day_tip (slider_value z)
                 = (if (30 <? z)%Z then Hot_Day_Tips
                    else if (z <? 20)%Z then Cold_Day_Tips
                    else Comfortable_Day_Tips)
              /\ is_number (slider_value z)).
  { replace z with (10 + Z.of_nat (Z.to_nat (z - 10)))%Z by lia.
    assert (B : (Z.to_nat (z - 10) < 36)%nat) by lia.
    revert B. generalize (Z.to_nat (z - 10)). intros n B.
    do 36 (destruct n as [|n]; [repeat split; reflexivity|]). lia. }
  destruct E as (E1 & E2 & E3).
  repeat split; try assumption.
  intros b. rewrite adjustment_by_label, E1. reflexivity.
Qed.

Lemma slider_values_as_integers_witness :
  weather_desc (slider_value 25) = weather_desc_int 25
  /\ (forall b, calculate_weather_adjustment (slider_value 25) b
                = b * label_multiplier (weather_desc_int 25))
  /\ day_tip (slider_value 25)
     = (if (30 <? 25)%Z then Hot_Day_Tips
        else if (25 <? 20)%Z then Cold_Day_Tips else Comfortable_Day_Tips)
  /\ is_number (slider_value 25).
Proof.
  apply (slider_values_as_integers 25). lia.
Defined.

(** ** Tips and labels *)

Lemma above_not_below (k k' t : float) :
  (k <=? k') = true -> (k' <? t) = true -> (t <? k) = false.
Proof.
  intros Hk Ht.
  apply (at_least_not_below k k' t Hk), FloatOrder.ltb_leb, Ht.
Qed.

Lemma below_below (t k k' : float) :
  (t <? k) = true -> (k <=? k') = true -> (t <? k') = true.
Proof. apply FloatOrder.ltb_leb_trans. Qed.

(** The tips of a day follow their own thresholds (above 30, below 20), so
    they only roughly follow the label of the weather card: hot tips come
    with the labels Hot or Very Hot, cold tips with Very Cold or Cool, and
    the comfortable tips with any of Cool, Comfortable, Warm and Hot.  The
    label Very Hot always gets the hot tips and Very Cold the cold tips, but
    Cool and Hot are each split between two cards. *)
Theorem tips_against_labels (t : float) :
  is_number t ->
  match day_tip t with
  | Hot_Day_Tips => weather_desc t = Hot \/ weather_desc t = Very_Hot
  | Cold_Day_Tips => weather_desc t = Very_Cold \/ weather_desc t = Cool
  | Comfortable_Day_Tips =>
      weather_desc t = Cool \/ weather_desc t = Comfortable
      \/ weather_desc t = Warm \/ weather_desc t = Hot
  end
  /\ (weather_desc t = Very_Hot -> day_tip t = Hot_Day_Tips)
  /\ (weather_desc t = Very_Cold -> day_tip t = Cold_Day_Tips)
  /\ (weather_desc t = Comfortable \/ weather_desc t = Warm ->
      day_tip t = Comfortable_Day_Tips).
Proof.
  intros Nt. unfold day_tip, weather_desc, weather_description.
  destruct (30 <? t) eqn:H30.
  - rewrite (above_not_below 18 30 t eq_refl H30),
      (above_not_below 22 30 t eq_refl H30),
      (above_not_below 26 30 t eq_refl H30),
      (above_not_below 30 30 t eq_refl H30).
    destruct (t <? 35); cbn [fst];
      repeat split; auto; intros H; try discriminate H;
      destruct H; discriminate.
  - apply (not_below_at_least t 30) in H30; [|assumption|reflexivity].
    rewrite (FloatOrder.leb_ltb_trans t 30 35 H30 eq_refl).
    destruct (t <? 20) eqn:H20.
    + rewrite (below_below t 20 22 H20 eq_refl).
      destruct (t <? 18); cbn [fst];
        repeat split; auto; intros H; try discriminate H;
        destruct H; discriminate.
    + apply (not_below_at_least 20 t) in H20; [|reflexivity|assumption].
      rewrite (at_least_not_below 18 20 t eq_refl H20).
      destruct (t <? 22), (t <? 26), (t <? 30); cbn [fst];
        repeat split; auto; intros H; discriminate H.
Qed.

Lemma tips_against_labels_witness :
  match day_tip 30 with
  | Hot_Day_Tips => weather_desc 30 = Hot \/ weather_desc 30 = Very_Hot
  | Cold_Day_Tips => weather_desc 30 = Very_Cold \/ weather_desc 30 = Cool
  | Comfortable_Day_Tips =>
      weather_desc 30 = Cool \/ weather_desc 30 = Comfortable
      \/ weather_desc 30 = Warm \/ weather_desc 30 = Hot
  end
  /\ (weather_desc 30 = Very_Hot -> day_tip 30 = Hot_Day_Tips)
  /\ (weather_desc 30 = Very_Cold -> day_tip 30 = Cold_Day_Tips)
  /\ (weather_desc 30 = Comfortable \/ weather_desc 30 = Warm ->
      day_tip 30 = Comfortable_Day_Tips).
Proof.
  apply (tips_against_labels 30). reflexivity.
Defined.

(** ** Estimates across bands and rooms *)

(** On the six rows of the table, a strictly later band gives a strictly
    larger fan_ac value and a strictly larger total. *)
Lemma band_totals_strict (alg : sum_algorithm) (h r : string)
  (p : BaseProfile) (d1 d2 : weather_label) :
  In (h, r, p) table_4_1 ->
  (label_index d1 < label_index d2)%nat ->
  (fan_or_ac p * label_multiplier d1 <? fan_or_ac p * label_multiplier d2)
  = true
  /\ (py_sum alg [ lighting p; fan_or_ac p * label_multiplier d1;
                   appliances p; water_heater p; refrigerator p ]
      <? py_sum alg [ lighting p; fan_or_ac p * label_multiplier d2;
                      appliances p; water_heater p; refrigerator p ])
     = true.
Proof.
  intros H L. simpl in H.
  repeat (destruct H as [H | H];
          [ inversion H; subst; clear H;
            destruct d1, d2; simpl in L; try lia;
            destruct alg; split; vm_compute; reflexivity | ]).
  contradiction.
Qed.

(** A threshold between two temperatures puts them in different bands. *)
Lemma threshold_separates (t1 t2 k : float) :
  In k thresholds -> (t1 <? k) = true -> (k <=? t2) = true ->
  (label_index (weather_desc t1) < label_index (weather_desc t2))%nat.
Proof.
  intros K H1 H2. unfold weather_desc, weather_description.
  simpl in K.
  repeat (destruct K as [<- | K]);
    [ .. | contradiction ];
    match type of H2 with
    | (?k <=? _) = true =>
        rewrite ?(at_least_not_below 18 k t2 eq_refl H2),
                ?(at_least_not_below 22 k t2 eq_refl H2),
                ?(at_least_not_below 26 k t2 eq_refl H2),
                ?(at_least_not_below 30 k t2 eq_refl H2),
                ?(at_least_not_below 35 k t2 eq_refl H2)
    end;
    pose proof (fun k' => below_below t1 _ k' H1) as M;
    try rewrite (M 22 eq_refl); try rewrite (M 26 eq_refl);
    try rewrite (M 30 eq_refl); try rewrite (M 35 eq_refl);
    repeat match goal with
    | |- context [if ?c then _ else _] => destruct c eqn:?
    end;
    cbn [fst label_index]; try lia; congruence.
Qed.

(** Crossing a threshold always shows: when one of 18, 22, 26, 30, 35 lies
    above the first temperature and at or below the second, a valid
    configuration gets a strictly larger fan_ac value and a strictly larger
    total at the second temperature. *)
Theorem crossing_a_threshold_raises_the_estimate (alg : sum_algorithm)
  (h r : string) (t1 t2 k : float) :
  valid_configuration h r = true ->
  In k thresholds -> (t1 <? k) = true -> (k <=? t2) = true ->
  exists d1 d2 f1 f2 s1 s2,
    calculate_daily_energy alg h r t1 = Ok (Some d1)
    /\ calculate_daily_energy alg h r t2 = Ok (Some d2)
    /\ Dict.getitem d1 "fan_ac" = Ok f1 /\ Dict.getitem d2 "fan_ac" = Ok f2
    /\ Dict.getitem d1 "total" = Ok s1 /\ Dict.getitem d2 "total" = Ok s2
    /\ (f1 <? f2) = true /\ (s1 <? s2) = true.
Proof.
  intros V K H1 H2.
  destruct (daily_energy_valid alg h r t1 V) as (p & Hp & E & D1).
  pose proof (daily_energy_of_profile alg h r t2 p E) as D2.
  pose proof (band_totals_strict alg h r p _ _ Hp
                (threshold_separates t1 t2 k K H1 H2)) as [F S].
  rewrite <- !multiplier_by_label in F, S.
  do 6 eexists.
  split; [exact D1|]. split; [exact D2|].
  repeat (split; [reflexivity|]).
  split; [exact F | exact S].
Qed.

Lemma crossing_a_threshold_raises_the_estimate_witness :
  exists d1 d2 f1 f2 s1 s2,
    calculate_daily_energy Sequential "flat" "3BHK" 29.5 = Ok (Some d1)
    /\ calculate_daily_energy Sequential "flat" "3BHK" 30 = Ok (Some d2)
    /\ Dict.getitem d1 "fan_ac" = Ok f1 /\ Dict.getitem d2 "fan_ac" = Ok f2
    /\ Dict.getitem d1 "total" = Ok s1 /\ Dict.getitem d2 "total" = Ok s2
    /\ (f1 <? f2) = true /\ (s1 <? s2) = true.
Proof.
  apply (crossing_a_threshold_raises_the_estimate Sequential "flat" "3BHK"
           29.5 30 30); try reflexivity.
  simpl. do 3 right. left. reflexivity.
Defined.

Lemma ltb_irrefl (x : float) : (x <? x) = false.
Proof.
  destruct (x <? x) eqn:S; [|reflexivity].
  destruct (FloatOrder.ltb_not_nan _ _ S) as [N _].
  rewrite (FloatOrder.ltb_negb_leb x x N N), (FloatOrder.leb_refl x N) in S.
  discriminate S.
Qed.

(** The estimate depends on the temperature only through its band: two
    temperatures with the same label give the same outcome for every pair
    of strings, and for a valid configuration two temperatures with
    different labels give different outcomes. *)
Theorem estimate_determined_by_band (alg : sum_algorithm) (h r : string)
  (t1 t2 : float) :
  (weather_desc t1 = weather_desc t2 ->
   calculate_daily_energy alg h r t1 = calculate_daily_energy alg h r t2)
  /\ (valid_configuration h r = true ->
      calculate_daily_energy alg h r t1 = calculate_daily_energy alg h r t2 ->
      weather_desc t1 = weather_desc t2).
Proof.
  split.
  - intros E. destruct (valid_configuration h r) eqn:V.
    + destruct (daily_energy_valid alg h r t1 V) as (p & _ & B & ->).
      rewrite (daily_energy_of_profile alg h r t2 p B).
      rewrite !multiplier_by_label, E. reflexivity.
    + rewrite !daily_energy_invalid by assumption. reflexivity.
  - intros V E.
    destruct (daily_energy_valid alg h r t1 V) as (p & Hp & B & D1).
    rewrite D1, (daily_energy_of_profile alg h r t2 p B) in E.
    injection E as F T. clear T.
    rewrite !multiplier_by_label in F.
    destruct (Nat.lt_total (label_index (weather_desc t1))
                           (label_index (weather_desc t2))) as [L | [L | L]].
    + destruct (band_totals_strict alg h r p _ _ Hp L) as [S _].
      rewrite F in S.
      rewrite ltb_irrefl in S. discriminate S.
    + destruct (weather_desc t1), (weather_desc t2);
        try reflexivity; discriminate L.
    + destruct (band_totals_strict alg h r p _ _ Hp L) as [S _].
      rewrite F in S.
      rewrite ltb_irrefl in S. discriminate S.
Qed.

Lemma estimate_determined_by_band_witness :
  calculate_daily_energy Sequential "flat" "1BHK" 22
  = calculate_daily_energy Sequential "flat" "1BHK" 25.9
  /\ weather_desc 31 = weather_desc 34.5.
Proof.
  split.
  - apply (proj1 (estimate_determined_by_band Sequential "flat" "1BHK"
                    22 25.9)).
    reflexivity.
  - apply (proj2 (estimate_determined_by_band Sequential "flat" "1BHK"
                    31 34.5)); reflexivity.
Defined.

Lemma breakdown_dict_lookup (alg : sum_algorithm) (p : BaseProfile)
  (m : float) (k : string) (v : float) :
  Dict.lookup (breakdown_dict alg p m) k = Some v ->
  (k = "lighting" /\ v = lighting p) \/ (k = "fan_ac" /\ v = fan_or_ac p * m)
  \/ (k = "appliances" /\ v = appliances p)
  \/ (k = "water_heater" /\ v = water_heater p)
  \/ (k = "refrigerator" /\ v = refrigerator p)
  \/ (k = "total"
      /\ v = py_sum alg [ lighting p; fan_or_ac p * m; appliances p;
                          water_heater p; refrigerator p ]).
Proof.
  unfold breakdown_dict. cbn [Dict.lookup].
  repeat match goal with
  | |- context [String.eqb ?a k] =>
      destruct (String.eqb_spec a k) as [<- | _];
      [intros H; inversion H; tauto|]
  end.
  discriminate.
Qed.

(** With the same housing type and at the same temperature, more rooms
    mean more energy: from 1BHK to 2BHK to 3BHK every category of the
    estimate and its total grow strictly. *)
Theorem more_rooms_higher_estimate (alg : sum_algorithm) (h : string)
  (t : float) :
  In h housing_types ->
  exists d1 d2 d3,
    calculate_daily_energy alg h "1BHK" t = Ok (Some d1)
    /\ calculate_daily_energy alg h "2BHK" t = Ok (Some d2)
    /\ calculate_daily_energy alg h "3BHK" t = Ok (Some d3)
    /\ forall k, In k (categories ++ ["total"]) ->
         exists v1 v2 v3,
           Dict.lookup d1 k = Some v1 /\ Dict.lookup d2 k = Some v2
           /\ Dict.lookup d3 k = Some v3
           /\ (v1 <? v2) = true /\ (v2 <? v3) = true.
Proof.
  intros H. simpl in H.
  destruct H as [<- | [<- | []]];
    [ exists
        (breakdown_dict alg (Build_BaseProfile 1.5 4.0 3.5 2.0 1.8)
           (weatherMultiplier t)),
        (breakdown_dict alg (Build_BaseProfile 2.2 6.0 4.5 2.5 2.0)
           (weatherMultiplier t)),
        (breakdown_dict alg (Build_BaseProfile 3.0 8.0 6.0 3.0 2.2)
           (weatherMultiplier t))
    | exists
        (breakdown_dict alg (Build_BaseProfile 1.8 5.0 3.0 1.5 1.6)
           (weatherMultiplier t)),
        (breakdown_dict alg (Build_BaseProfile 2.5 7.0 4.0 2.0 1.8)
           (weatherMultiplier t)),
        (breakdown_dict alg (Build_BaseProfile 3.5 9.0 5.5 2.5 2.0)
           (weatherMultiplier t)) ];
    (split; [apply daily_energy_of_profile; reflexivity|]);
    (split; [apply daily_energy_of_profile; reflexivity|]);
    (split; [apply daily_energy_of_profile; reflexivity|]);
    rewrite multiplier_by_label;
    intros k K; simpl in K;
    destruct (weather_desc t), alg;
    repeat (destruct K as [<- | K];
            [do 3 eexists; repeat split; vm_compute; reflexivity|]);
    contradiction.
Qed.

Lemma more_rooms_higher_estimate_witness :
  exists d1 d2 d3,
    calculate_daily_energy Sequential "flat" "1BHK" 28 = Ok (Some d1)
    /\ calculate_daily_energy Sequential "flat" "2BHK" 28 = Ok (Some d2)
    /\ calculate_daily_energy Sequential "flat" "3BHK" 28 = Ok (Some d3)
    /\ forall k, In k (categories ++ ["total"]) ->
         exists v1 v2 v3,
           Dict.lookup d1 k = Some v1 /\ Dict.lookup d2 k = Some v2
           /\ Dict.lookup d3 k = Some v3
           /\ (v1 <? v2) = true /\ (v2 <? v3) = true.
Proof.
  apply (more_rooms_higher_estimate Sequential "flat" 28).
  simpl. left. reflexivity.
Defined.

(** Between 30 degrees inclusive and 35 exclusive the adjustment leaves the
    estimate of a valid configuration at its base values: the outcome is the
    base dictionary with the sum of its values added as total. *)
Theorem hot_band_keeps_base_values (alg : sum_algorithm) (h r : string)
  (t : float) :
  valid_configuration h r = true ->
  (30 <=? t) = true -> (t <? 35) = true ->
  calculate_daily_energy alg h r t
  = Ok (Some (Dict.setitem (calculate_base_energy h r) "total"
                (py_sum alg (Dict.values (calculate_base_energy h r))))).
Proof.
  intros V L U.
  destruct (daily_energy_valid alg h r t V) as (p & Hp & E & ->).
  rewrite E, (in_band_multiplier t 1.0 (band_30_35 t L U)).
  simpl in Hp.
  repeat (destruct Hp as [Hp | Hp];
          [inversion Hp; subst; clear Hp; reflexivity|]).
  contradiction.
Qed.

Lemma hot_band_keeps_base_values_witness :
  calculate_daily_energy Compensated "tenement" "2BHK" 32
  = Ok (Some (Dict.setitem (calculate_base_energy "tenement" "2BHK") "total"
                (py_sum Compensated
                   (Dict.values (calculate_base_energy "tenement" "2BHK"))))).
Proof.
  apply (hot_band_keeps_base_values Compensated "tenement" "2BHK" 32);
    reflexivity.
Defined.

(** Every estimate of a valid configuration, at any temperature whatsoever
    (NaN and the infinities included), consists of finite, strictly positive
    values, and its total lies between 8.4 and 25.200000000000003 kWh. *)
Theorem estimates_are_bounded (alg : sum_algorithm) (h r : string)
  (t : float) :
  valid_configuration h r = true ->
  exists d s,
    calculate_daily_energy alg h r t = Ok (Some d)
    /\ Dict.getitem d "total" = Ok s
    /\ (8.4 <=? s) = true /\ (s <=? 25.200000000000003) = true
    /\ forall k v, Dict.lookup d k = Some v ->
         (0 <? v) = true /\ is_finite v = true.
Proof.
  intros V.
  destruct (daily_energy_valid alg h r t V) as (p & Hp & _ & D).
  do 2 eexists. split; [exact D|]. split; [reflexivity|].
  rewrite multiplier_by_label. simpl in Hp.
  repeat (destruct Hp as [Hp | Hp];
          [ inversion Hp; subst; clear Hp;
            destruct (weather_desc t), alg;
            (split; [reflexivity|]); (split; [reflexivity|]);
            intros k v L; apply breakdown_dict_lookup in L;
            repeat (destruct L as [[-> ->] | L]);
            try (destruct L as [-> ->]); split; reflexivity | ]).
  contradiction.
Qed.

Lemma estimates_are_bounded_witness :
  exists d s,
    calculate_daily_energy Sequential "tenement" "3BHK" infinity = Ok (Some d)
    /\ Dict.getitem d "total" = Ok s
    /\ (8.4 <=? s) = true /\ (s <=? 25.200000000000003) = true
    /\ forall k v, Dict.lookup d k = Some v ->
         (0 <? v) = true /\ is_finite v = true.
Proof.
  apply (estimates_are_bounded Sequential "tenement" "3BHK" infinity).
  reflexivity.
Defined.

(** ** The personal information *)

Lemma lstrip_truthy (s : py_str) : str_truthy (lstrip s) = has_text s.
Proof.
  induction s as [|c rest IH]; [reflexivity|].
  simpl. destruct (is_whitespace c); [exact IH | reflexivity].
Qed.

Lemma lstrip_has_text (s : py_str) : has_text (lstrip s) = has_text s.
Proof.
  induction s as [|c rest IH]; [reflexivity|].
  simpl. destruct (is_whitespace c) eqn:W; [exact IH|].
  simpl. rewrite W. reflexivity.
Qed.

Lemma rev_has_text (s : py_str) : has_text (rev s) = has_text s.
Proof.
  unfold has_text. induction s as [|c rest IH]; [reflexivity|].
  simpl. rewrite existsb_app, IH. simpl.
  rewrite orb_false_r. apply orb_comm.
Qed.

Lemma rev_truthy (s : py_str) : str_truthy (rev s) = str_truthy s.
Proof.
  destruct s as [|c rest]; [reflexivity|].
  simpl. destruct (rev rest ++ [c]) eqn:E; [|reflexivity].
  apply app_eq_nil in E. destruct E as [_ E]. discriminate E.
Qed.

Lemma strip_truthy (s : py_str) : str_truthy (strip s) = has_text s.
Proof.
  unfold strip, rstrip.
  rewrite rev_truthy, lstrip_truthy, rev_has_text. apply lstrip_has_text.
Qed.

(** What [strip] returns is the string between its leading and its trailing
    whitespace. *)
Lemma lstrip_split (s : py_str) :
  exists ws, s = ws ++ lstrip s /\ forallb is_whitespace ws = true.
Proof.
  induction s as [|c rest (ws & E & W)]; [exists []; split; reflexivity|].
  simpl. destruct (is_whitespace c) eqn:C.
  - exists (c :: ws). simpl. rewrite C, W, <- E. split; reflexivity.
  - exists []. split; reflexivity.
Qed.

(** The rows of the week are computed only when the name, the city and the
    area each contain something other than whitespace; the test is on the
    stripped strings, the age plays no part, and when any of the three is
    blank the week has no rows, whatever the configuration and the
    temperatures. *)
Theorem blank_information_hides_the_week (name city area : py_str) :
  info_complete name city area
  = has_text name && has_text city && has_text area
  /\ (has_text name = false \/ has_text city = false
      \/ has_text area = false ->
      forall alg h r day_temperatures,
        collect_week alg (info_complete name city area) h r []
          day_temperatures
        = Ok []).
Proof.
  assert (E : info_complete name city area
              = has_text name && has_text city && has_text area).
  { unfold info_complete. rewrite !strip_truthy. reflexivity. }
  split; [exact E|].
  intros B alg h r dts. rewrite E.
  replace (has_text name && has_text city && has_text area) with false.
  - apply collect_week_without_info.
  - destruct B as [-> | [-> | ->]];
      rewrite ?andb_false_r; reflexivity.
Qed.

Lemma blank_information_hides_the_week_witness :
  collect_week Sequential
    (info_complete [65; 110; 118; 105]%N [32; 9; 12288]%N [66]%N)
    "flat" "2BHK" [] (combine days [25; 31; 25; 31; 25; 25; 25])
  = Ok [].
Proof.
  apply (proj2 (blank_information_hides_the_week
                  [65; 110; 118; 105]%N [32; 9; 12288]%N [66]%N)).
  right. left. reflexivity.
Defined.

(** [strip] removes whitespace from the two ends only and nothing else: the
    string is leading whitespace, the stripped string, trailing whitespace;
    the stripped string neither starts nor ends with whitespace, and
    stripping it again changes nothing. *)
Theorem strip_trims_both_ends (s : py_str) :
  (exists before after,
     s = before ++ strip s ++ after
     /\ forallb is_whitespace before = true
     /\ forallb is_whitespace after = true)
  /\ (forall c rest, strip s = c :: rest -> is_whitespace c = false)
  /\ (forall front c, strip s = front ++ [c] -> is_whitespace c = false)
  /\ strip (strip s) = strip s.
Proof.
  assert (Head : forall u c rest, lstrip u = c :: rest ->
                                  is_whitespace c = false).
  { induction u as [|a u IH]; intros c rest; simpl; [discriminate|].
    destruct (is_whitespace a) eqn:A; [apply IH|].
    intros H. inversion H; subst. exact A. }
  assert (Fix : forall u c rest, u = c :: rest -> is_whitespace c = false ->
                                 lstrip u = u).
  { intros u c rest -> W. simpl. rewrite W. reflexivity. }
  assert (Last : forall front c, strip s = front ++ [c] ->
                                 is_whitespace c = false).
  { intros front c E. unfold strip, rstrip in E.
    apply (f_equal (@rev N)) in E.
    rewrite rev_involutive, rev_app_distr in E. simpl in E.
    eapply Head, E. }
  assert (End : rstrip (strip s) = strip s).
  { unfold rstrip.
    destruct (rev (strip s)) as [|c rest] eqn:R.
    - apply (f_equal (@rev N)) in R. rewrite rev_involutive in R.
      rewrite R. reflexivity.
    - assert (E : strip s = rev rest ++ [c]).
      { apply (f_equal (@rev N)) in R. rewrite rev_involutive in R.
        exact R. }
      rewrite (Fix (c :: rest) c rest eq_refl (Last _ _ E)).
      rewrite E. reflexivity. }
  destruct (lstrip_split s) as (before & Eb & Wb).
  destruct (lstrip_split (rev (lstrip s))) as (after & Ea & Wa).
  assert (P : lstrip s = strip s ++ rev after).
  { unfold strip, rstrip. rewrite <- rev_app_distr, <- Ea.
    rewrite rev_involutive. reflexivity. }
  assert (First : forall c rest, strip s = c :: rest ->
                                 is_whitespace c = false).
  { intros c rest E. rewrite E in P. simpl in P. eapply Head, P. }
  repeat split.
  - exists before, (rev after). repeat split.
    + rewrite <- P. exact Eb.
    + exact Wb.
    + rewrite forallb_forall in *. intros x Hx. apply Wa, in_rev, Hx.
  - exact First.
  - exact Last.
  - unfold strip at 1.
    destruct (strip s) as [|c rest] eqn:E; [reflexivity|].
    rewrite (Fix (c :: rest) c rest eq_refl (First c rest eq_refl)).
    exact End.
Qed.

(** ** The rows of the week *)

Lemma append_day_valid (alg : sum_algorithm) (h r : string) (p : BaseProfile)
  (weekly_data : list weekly_row) (day : string) (t : float) :
  calculate_base_energy h r = profile_dict p ->
  append_day alg true h r weekly_data day t
  = Ok (weekly_data ++ [row_of alg p day t]).
Proof.
  intros E. unfold append_day.
  rewrite (daily_energy_of_profile alg h r t p E). reflexivity.
Qed.

Lemma collect_week_rows (alg : sum_algorithm) (h r : string)
  (p : BaseProfile) (day_temperatures : list (string * float))
  (weekly_data : list weekly_row) :
  calculate_base_energy h r = profile_dict p ->
  collect_week alg true h r weekly_data day_temperatures
  = Ok (weekly_data
        ++ map (fun dt => row_of alg p (fst dt) (snd dt)) day_temperatures).
Proof.
  intros E. revert weekly_data.
  induction day_temperatures as [|[day t] rest IH]; intros weekly_data.
  - simpl. rewrite app_nil_r. reflexivity.
  - cbn [collect_week]. rewrite (append_day_valid alg h r p _ _ _ E).
    cbn [bind]. rewrite IH, <- app_assoc. reflexivity.
Qed.

(** With the information filled in and a valid configuration, the loop adds
    to [weekly_data] exactly one row per day, in the order of the days: the
    row carries the day, its temperature, and the five values and the total
    of that day's estimate. *)
Theorem week_rows_follow_the_days (alg : sum_algorithm) (h r : string)
  (weekly_data : list weekly_row) (day_temperatures : list (string * float)) :
  valid_configuration h r = true ->
  exists rows,
    collect_week alg true h r weekly_data day_temperatures
    = Ok (weekly_data ++ rows)
    /\ map Day rows = map fst day_temperatures
    /\ map Temperature rows = map snd day_temperatures
    /\ Forall (fun row =>
         calculate_daily_energy alg h r (Temperature row)
         = Ok (Some [ ("lighting", Lighting row); ("fan_ac", Fan_AC row);
                      ("appliances", Appliances row);
                      ("water_heater", Water_Heater row);
                      ("refrigerator", Refrigerator row);
                      ("total", Total_Energy row) ])) rows.
Proof.
  intros V.
  destruct (valid_in_table h r V) as [p Hp].
  destruct (table_base_energy h r p Hp) as [_ E].
  exists (map (fun dt => row_of alg p (fst dt) (snd dt)) day_temperatures).
  split; [apply collect_week_rows, E|].
  rewrite !map_map. cbn [row_of Day Temperature].
  repeat split.
  rewrite Forall_map, Forall_forall. intros [day t] _.
  apply (daily_energy_of_profile alg h r t p E).
Qed.

Lemma week_rows_follow_the_days_witness :
  exists rows,
    collect_week Sequential true "flat" "2BHK" []
      (combine days [25; 31; 25; 31; 25; 25; 25])
    = Ok ([] ++ rows)
    /\ map Day rows = map fst (combine days [25; 31; 25; 31; 25; 25; 25])
    /\ map Temperature rows
       = map snd (combine days [25; 31; 25; 31; 25; 25; 25])
    /\ Forall (fun row =>
         calculate_daily_energy Sequential "flat" "2BHK" (Temperature row)
         = Ok (Some [ ("lighting", Lighting row); ("fan_ac", Fan_AC row);
                      ("appliances", Appliances row);
                      ("water_heater", Water_Heater row);
                      ("refrigerator", Refrigerator row);
                      ("total", Total_Energy row) ])) rows.
Proof.
  apply (week_rows_follow_the_days Sequential "flat" "2BHK" []
           (combine days [25; 31; 25; 31; 25; 25; 25])).
  reflexivity.
Defined.

Lemma week_rows_follow_the_days_aux (alg : sum_algorithm) (h r : string)
  (day_temperatures : list (string * float)) :
  valid_configuration h r = true ->
  exists rows,
    collect_week alg true h r [] day_temperatures = Ok rows
    /\ map Day rows = map fst day_temperatures.
Proof.
  intros V.
  destruct (valid_in_table h r V) as [p Hp].
  destruct (table_base_energy h r p Hp) as [_ E].
  eexists. split; [apply (collect_week_rows alg h r p _ [] E)|].
  cbn [app]. rewrite map_map. reflexivity.
Qed.

(** The loop never raises, and the week is all or nothing: it has one row
    for every day when the information is complete and the configuration
    valid, and no row at all otherwise. *)
Theorem week_is_all_or_nothing (alg : sum_algorithm) (info : bool)
  (h r : string) (day_temperatures : list (string * float)) :
  exists rows,
    collect_week alg info h r [] day_temperatures = Ok rows
    /\ (if info && valid_configuration h r
        then map Day rows = map fst day_temperatures
        else rows = [])
    /\ (rows = [] <->
        info = false \/ valid_configuration h r = false
        \/ day_temperatures = []).
Proof.
  destruct info; [destruct (valid_configuration h r) eqn:V|].
  - destruct (week_rows_follow_the_days_aux alg h r day_temperatures V)
      as (rows & C & D).
    exists rows. split; [exact C|]. split; [exact D|].
    split.
    + intros ->. right. right.
      destruct day_temperatures; [reflexivity | discriminate D].
    + intros [F | [F | ->]]; try discriminate F.
      destruct rows; [reflexivity | discriminate D].
  - exists []. split; [apply collect_week_invalid, V|].
    split; [reflexivity|]. split; auto.
  - exists []. split; [apply collect_week_without_info|].
    split; [reflexivity|]. split; auto.
Qed.

(** ** The summary of a collected week *)

(** The summary of rows whose totals are numbers: its peak row is the first
    largest one. *)
Lemma summary_of_numbers (column_sum : list float -> float)
  (weekly_data : list weekly_row) :
  weekly_data <> [] ->
  Forall (fun row => is_number (Total_Energy row)) weekly_data ->
  exists s i peak,
    weekly_summary column_sum weekly_data = Ok (Some s)
    /\ nth_error weekly_data i = Some peak
    /\ Highest_Consumption_Day s = Day peak
    /\ (forall j row, nth_error weekly_data j = Some row ->
          (Total_Energy row <=? Total_Energy peak) = true)
    /\ (forall j row, (j < i)%nat -> nth_error weekly_data j = Some row ->
          (Total_Energy row <? Total_Energy peak) = true).
Proof.
  intros NE N.
  assert (Ncol : Forall is_number (map Total_Energy weekly_data)).
  { rewrite Forall_map. exact N. }
  destruct weekly_data as [|row0 rest]; [congruence|].
  pose proof (argmax_spec (Total_Energy row0) (map Total_Energy rest) Ncol)
    as (m & Hm & Hle & Hlt).
  change (Total_Energy row0 :: map Total_Energy rest)
    with (map Total_Energy (row0 :: rest)) in *.
  rewrite nth_error_map in Hm.
  destruct (nth_error (row0 :: rest) (argmax (map Total_Energy (row0 :: rest))))
    as [peak|] eqn:Hpeak; [|discriminate].
  injection Hm as Em. subst m.
  unfold weekly_summary.
  rewrite idxmax_numbers by (assumption || discriminate).
  cbn [bind]. rewrite Hpeak.
  eexists; exists (argmax (map Total_Energy (row0 :: rest))), peak.
  split; [reflexivity|]. split; [exact Hpeak|]. split; [reflexivity|].
  split.
  - intros j row Hj. apply (Hle j). rewrite nth_error_map, Hj. reflexivity.
  - intros j row L Hj. apply (Hlt j _ L).
    rewrite nth_error_map, Hj. reflexivity.
Qed.

(** On the rows of the table the totals are numbers, and their order tells
    the order of the bands. *)
Lemma band_total_reflects_band (alg : sum_algorithm) (h r : string)
  (p : BaseProfile) (d1 d2 : weather_label) :
  In (h, r, p) table_4_1 ->
  is_number (band_total alg p d1)
  /\ ((band_total alg p d1 <=? band_total alg p d2) = true ->
      (label_index d1 <= label_index d2)%nat)
  /\ ((band_total alg p d1 <? band_total alg p d2) = true ->
      (label_index d1 < label_index d2)%nat).
Proof.
  intros H. simpl in H.
  repeat (destruct H as [H | H];
          [ inversion H; subst; clear H;
            destruct d1, d2, alg;
            (split; [reflexivity|]);
            split; intros Q; vm_compute in Q; simpl;
            solve [lia | discriminate Q] | ]).
  contradiction.
Qed.

Lemma row_of_total (alg : sum_algorithm) (p : BaseProfile) (day : string)
  (t : float) :
  Total_Energy (row_of alg p day t) = band_total alg p (weather_desc t).
Proof.
  unfold row_of, band_total. cbn [Total_Energy].
  rewrite multiplier_by_label. reflexivity.
Qed.

(** The dashboard never fails: whatever the information, the configuration,
    the temperatures and the summation routine, the rows are collected and
    the summary step ends without raising; it shows a summary exactly when
    there is at least one row, and the peak day it names is one of the days
    of the week. *)
Theorem dashboard_never_raises (column_sum : list float -> float)
  (alg : sum_algorithm) (info : bool) (h r : string)
  (day_temperatures : list (string * float)) :
  exists rows out,
    collect_week alg info h r [] day_temperatures = Ok rows
    /\ weekly_summary column_sum rows = Ok out
    /\ (out = None <-> rows = [])
    /\ (forall s, out = Some s ->
          In (Highest_Consumption_Day s) (map fst day_temperatures)).
Proof.
  assert (Empty : exists out : option summary_metrics,
            weekly_summary column_sum [] = Ok out
            /\ (out = None <-> @nil weekly_row = [])
            /\ (forall s, out = Some s ->
                  In (Highest_Consumption_Day s)
                     (map fst day_temperatures))).
  { exists None. split; [reflexivity|]. split; [tauto | discriminate]. }
  destruct info; [destruct (valid_configuration h r) eqn:V|].
  - destruct (valid_in_table h r V) as [p Hp].
    destruct (table_base_energy h r p Hp) as [_ E].
    pose proof (collect_week_rows alg h r p day_temperatures [] E) as C.
    cbn [app] in C.
    eexists. destruct day_temperatures as [|dt rest] eqn:DT.
    + destruct Empty as (out & S & R). exists out. split; [exact C|].
      split; [exact S | exact R].
    + rewrite <- DT in *.
      destruct (summary_of_numbers column_sum
                  (map (fun dt => row_of alg p (fst dt) (snd dt))
                     day_temperatures))
        as (s & i & peak & S & Hi & Hd & _).
      * rewrite DT. discriminate.
      * rewrite Forall_map, Forall_forall. intros [day t] _.
        cbn [fst snd]. rewrite row_of_total.
        apply (band_total_reflects_band alg h r p _ Very_Cold Hp).
      * exists (Some s). split; [exact C|]. split; [exact S|].
        split; [rewrite DT; split; discriminate|].
        intros s' Q. injection Q as <-. rewrite Hd.
        apply nth_error_In in Hi. rewrite in_map_iff in Hi.
        destruct Hi as ([day t] & <- & Hin). cbn [row_of Day fst].
        apply (in_map fst _ _ Hin).
  - exists []. destruct Empty as (out & S & R). exists out.
    split; [apply collect_week_invalid, V|]. split; [exact S | exact R].
  - exists []. destruct Empty as (out & S & R). exists out.
    split; [apply collect_week_without_info|]. split; [exact S | exact R].
Qed.

(** For a valid configuration the peak day of the week is decided by the
    bands alone: it is the first day whose temperature lies in the highest
    band reached during the week. *)
Theorem peak_day_is_first_hottest_band (column_sum : list float -> float)
  (alg : sum_algorithm) (h r : string)
  (day_temperatures : list (string * float)) :
  valid_configuration h r = true ->
  day_temperatures <> [] ->
  exists rows s i day t,
    collect_week alg true h r [] day_temperatures = Ok rows
    /\ weekly_summary column_sum rows = Ok (Some s)
    /\ nth_error day_temperatures i = Some (day, t)
    /\ Highest_Consumption_Day s = day
    /\ (forall j day' t', nth_error day_temperatures j = Some (day', t') ->
          (label_index (weather_desc t') <= label_index (weather_desc t))%nat)
    /\ (forall j day' t', (j < i)%nat ->
          nth_error day_temperatures j = Some (day', t') ->
          (label_index (weather_desc t') < label_index (weather_desc t))%nat).
Proof.
  intros V NE.
  destruct (valid_in_table h r V) as [p Hp].
  destruct (table_base_energy h r p Hp) as [_ E].
  pose proof (collect_week_rows alg h r p day_temperatures [] E) as C.
  cbn [app] in C.
  set (rows := map (fun dt => row_of alg p (fst dt) (snd dt))
                 day_temperatures) in *.
  destruct (summary_of_numbers column_sum rows)
    as (s & i & peak & S & Hi & Hd & Hle & Hlt).
  - unfold rows. destruct day_temperatures; [congruence | discriminate].
  - unfold rows. rewrite Forall_map, Forall_forall. intros [day t] _.
    cbn [fst snd]. rewrite row_of_total.
    apply (band_total_reflects_band alg h r p _ Very_Cold Hp).
  - unfold rows in Hi. rewrite nth_error_map in Hi.
    destruct (nth_error day_temperatures i) as [[day t]|] eqn:Di;
      [|discriminate].
    injection Hi as <-. cbn [fst snd] in *.
    exists rows, s, i, day, t.
    split; [exact C|]. split; [exact S|]. split; [exact Di|].
    split; [exact Hd|].
    rewrite row_of_total in Hle, Hlt.
    split.
    + intros j day' t' Dj.
      apply (band_total_reflects_band alg h r p _ _ Hp).
      rewrite <- (row_of_total alg p day' t').
      apply (Hle j). unfold rows. rewrite nth_error_map, Dj. reflexivity.
    + intros j day' t' L Dj.
      apply (band_total_reflects_band alg h r p _ _ Hp).
      rewrite <- (row_of_total alg p day' t').
      apply (Hlt j _ L). unfold rows. rewrite nth_error_map, Dj. reflexivity.
Qed.

Lemma peak_day_is_first_hottest_band_witness :
  exists rows s i day t,
    collect_week Compensated true "tenement" "1BHK" []
      (combine days [12; 36; 20; 40; 33; 35; 18]) = Ok rows
    /\ weekly_summary sum_sequential rows = Ok (Some s)
    /\ nth_error (combine days [12; 36; 20; 40; 33; 35; 18]) i
       = Some (day, t)
    /\ Highest_Consumption_Day s = day
    /\ (forall j day' t',
          nth_error (combine days [12; 36; 20; 40; 33; 35; 18]) j
          = Some (day', t') ->
          (label_index (weather_desc t') <= label_index (weather_desc t))%nat)
    /\ (forall j day' t', (j < i)%nat ->
          nth_error (combine days [12; 36; 20; 40; 33; 35; 18]) j
          = Some (day', t') ->
          (label_index (weather_desc t') < label_index (weather_desc t))%nat).
Proof.
  apply (peak_day_is_first_hottest_band sum_sequential Compensated
           "tenement" "1BHK" (combine days [12; 36; 20; 40; 33; 35; 18])).
  - reflexivity.
  - simpl. discriminate.
Defined.

(** ** The personalised tips *)

(** The list of recommendations is never empty and never repeats an item:
    it is the catalogue of the ten items, in the order of the source, kept
    to those whose condition holds.  So each of the three hot-week items is
    in the list exactly when the average temperature is above 30, each of
    the three efficiency items exactly when the average energy is above 15,
    each of the two tenement items exactly when the housing type is the
    string "tenement", and the two general tips (smart power strips, AC at
    24 degrees) always, at the end; the list holds between two and ten
    items, and the displayed numbers run from 1 in the order of the list. *)
Theorem recommendations_shape (avg_temp avg_energy : float)
  (flat_tenement : string) :
  let recs := recommendations avg_temp avg_energy flat_tenement in
  recs = filter (shown_when avg_temp avg_energy flat_tenement)
           recommendation_catalogue
  /\ (forall x, In x recs
                <-> shown_when avg_temp avg_energy flat_tenement x = true)
  /\ (forall x, In x [Ceiling_fans; Solar_water_heater; Insulation] ->
        (In x recs <-> (30 <? avg_temp) = true))
  /\ (forall x, In x [LED_lights; Five_star_appliances;
                      Timer_water_heaters] ->
        (In x recs <-> (15 <? avg_energy) = true))
  /\ (forall x, In x [Rainwater_harvesting; Plant_trees] ->
        (In x recs <-> flat_tenement = "tenement"))
  /\ NoDup recs
  /\ (exists front, recs = front ++ [Smart_power_strips; AC_at_24])
  /\ (2 <= List.length recs <= 10)%nat
  /\ map fst (numbered_recommendations recs) = seq 1 (List.length recs)
  /\ map snd (numbered_recommendations recs) = recs.
Proof.
  cbv zeta.
  assert (F : recommendations avg_temp avg_energy flat_tenement
              = filter (shown_when avg_temp avg_energy flat_tenement)
                  recommendation_catalogue).
  { unfold recommendations, recommendation_catalogue, shown_when.
    cbn [filter].
    destruct (30 <? avg_temp), (15 <? avg_energy),
      (String.eqb flat_tenement "tenement"); reflexivity. }
  assert (M : forall x,
            In x (recommendations avg_temp avg_energy flat_tenement)
            <-> shown_when avg_temp avg_energy flat_tenement x = true).
  { intros x. rewrite F, filter_In. split; [tauto|].
    intros S. split; [|exact S].
    destruct x; simpl; tauto. }
  split; [exact F|]. split; [exact M|].
  split.
  { intros x [<- | [<- | [<- | []]]]; rewrite M; reflexivity. }
  split.
  { intros x [<- | [<- | [<- | []]]]; rewrite M; reflexivity. }
  split.
  { intros x [<- | [<- | []]]; rewrite M; cbn [shown_when];
      apply String.eqb_eq. }
  unfold recommendations, numbered_recommendations.
  destruct (30 <? avg_temp), (15 <? avg_energy),
    (String.eqb flat_tenement "tenement");
    cbn [app List.length seq combine map fst snd];
    (split; [repeat (apply NoDup_cons; [simpl; intuition discriminate|]);
             apply NoDup_nil|]);
    (split; [match goal with
             | |- exists front, ?l = _ =>
                 exists (removelast (removelast l)); reflexivity
             end|]);
    (split; [lia|]); split; reflexivity.
Qed.

Lemma recommendations_shape_witness :
  In Plant_trees (recommendations 28 16.5 "tenement")
  /\ In Timer_water_heaters (recommendations 28 16.5 "tenement")
  /\ ~ In Insulation (recommendations 28 16.5 "tenement").
Proof.
  pose proof (recommendations_shape 28 16.5 "tenement") as S.
  cbv zeta in S. destruct S as (_ & _ & Hot & Eff & Ten & _).
  split; [apply (Ten Plant_trees); [simpl; tauto | reflexivity]|].
  split; [apply (Eff Timer_water_heaters); [simpl; tauto | reflexivity]|].
  intros I. apply (Hot Insulation) in I; [discriminate I | simpl; tauto].
Defined.
